(** * Verification of pydantic_airtable: field-type resolution, value
    (de)serialization, configuration and batched record creation. *)

From Stdlib Require Import String Ascii List Bool ZArith Lia.
From stdpp Require Import base list gmap strings.
Import ListNotations.
Open Scope string_scope.
Set Warnings "-register-all".

(* ================================================================== *)
(** ** fields.py: AirTableFieldType *)

Inductive AirTableFieldType :=
  | SINGLE_LINE_TEXT | LONG_TEXT | EMAIL | URL | PHONE
  | NUMBER | CURRENCY | PERCENT | RATING | DURATION
  | DATE | DATETIME
  | CHECKBOX | SELECT | MULTI_SELECT
  | LINKED_RECORD | LOOKUP | ROLLUP | COUNT
  | ATTACHMENT | BARCODE | BUTTON | USER
  | FORMULA | AUTO_NUMBER | CREATED_TIME | MODIFIED_TIME | CREATED_BY | MODIFIED_BY.

(** The [str] value each member of the [(str, Enum)] class carries. *)
Definition field_type_value (t : AirTableFieldType) : string :=
  match t with
  | SINGLE_LINE_TEXT => "singleLineText" | LONG_TEXT => "multilineText"
  | EMAIL => "email" | URL => "url" | PHONE => "phoneNumber"
  | NUMBER => "number" | CURRENCY => "currency" | PERCENT => "percent"
  | RATING => "rating" | DURATION => "duration"
  | DATE => "date" | DATETIME => "dateTime"
  | CHECKBOX => "checkbox" | SELECT => "singleSelect" | MULTI_SELECT => "multipleSelects"
  | LINKED_RECORD => "multipleRecordLinks" | LOOKUP => "lookup" | ROLLUP => "rollup"
  | COUNT => "count"
  | ATTACHMENT => "multipleAttachments" | BARCODE => "barcode" | BUTTON => "button"
  | USER => "multipleCollaborators"
  | FORMULA => "formula" | AUTO_NUMBER => "autoNumber" | CREATED_TIME => "createdTime"
  | MODIFIED_TIME => "lastModifiedTime" | CREATED_BY => "createdBy"
  | MODIFIED_BY => "lastModifiedBy"
  end.

(** Truthiness of a Python [str]: the empty string is falsy. A member of a
    [str]-mixin enum is truthy exactly when its value is. *)
Definition str_truthy (s : string) : bool :=
  match s with EmptyString => false | _ => true end.

Definition field_type_truthy (t : AirTableFieldType) : bool :=
  str_truthy (field_type_value t).

(* ================================================================== *)
(** ** Python values and type annotations *)

(** The Python values that flow through the resolver's metadata and the
    value converters. *)
Record pydate := mkDate { d_year : Z; d_month : Z; d_day : Z }.

(** A naive or aware datetime; [dt_tz] is the UTC offset in microseconds. *)
Record pydatetime := mkDateTime {
  dt_date : pydate;
  dt_hour : Z; dt_minute : Z; dt_second : Z; dt_micro : Z;
  dt_tz : option Z }.

Inductive pyval :=
  | PNone
  | PBool (b : bool)
  | PInt (z : Z)
  | PStr (s : string)
  | PFieldType (t : AirTableFieldType)
  | PDate (d : pydate)
  | PDateTime (d : pydatetime)
  | PTimedelta (micros : Z).

(** Type annotations as [typing] builds them: classes, [Union[...]]
    (and hence [Optional[T] = Union[T, None]]) and parametrised generics
    such as [List[int]], whose [get_origin] is the bare class. *)
Inductive pytype :=
  | TStr | TInt | TFloat | TBool | TDatetime | TDate | TTimedelta
  | TList | TDict | TNoneType
  | TEnum (name : string)        (* a subclass of enum.Enum *)
  | TClass (name : string)       (* any other class *)
  | TUnionForm                   (* the special form typing.Union itself *)
  | TUnion (args : list pytype)
  | TGeneric (origin : pytype) (args : list pytype).

(** [Optional[T]] for a [T] that is neither [NoneType] nor a union:
    [typing] flattens the arguments of a union argument ([Union[...]] or
    [X | Y]) and removes duplicates, which this constructor does not do. *)
Definition Optional (t : pytype) : pytype := TUnion [t; TNoneType].

(** Union annotations: [Union[...]], the form [Union] itself, and [X | Y],
    whose [get_origin] is the class [types.UnionType]. *)
Definition is_union (t : pytype) : bool :=
  match t with
  | TUnion _ | TUnionForm => true
  | TGeneric (TClass n) _ => String.eqb n "UnionType"
  | _ => false
  end.

Definition pytype_eqb (a b : pytype) : bool :=
  match a, b with
  | TStr, TStr | TInt, TInt | TFloat, TFloat | TBool, TBool
  | TDatetime, TDatetime | TDate, TDate | TTimedelta, TTimedelta
  | TList, TList | TDict, TDict | TNoneType, TNoneType
  | TUnionForm, TUnionForm => true
  | TEnum x, TEnum y => String.eqb x y
  | TClass x, TClass y => String.eqb x y
  | _, _ => false
  end.

(* ================================================================== *)
(** ** Strings: [str.lower] and [re.search] with a literal pattern *)

Definition ascii_lower (c : ascii) : ascii :=
  let n := nat_of_ascii c in
  if (65 <=? n)%nat && (n <=? 90)%nat then ascii_of_nat (n + 32)%nat else c.

(** [str.lower] on ASCII names. *)
Fixpoint lower (s : string) : string :=
  match s with
  | EmptyString => EmptyString
  | String c s' => String (ascii_lower c) (lower s')
  end.

Fixpoint starts_with (p s : string) : bool :=
  match p, s with
  | EmptyString, _ => true
  | String a p', String b s' => Ascii.eqb a b && starts_with p' s'
  | String _ _, EmptyString => false
  end.

(** [re.search(pattern, s)] is truthy for a pattern without
    metacharacters exactly when the pattern occurs somewhere in [s]. *)
Fixpoint re_search (p s : string) : bool :=
  starts_with p s ||
  match s with
  | EmptyString => false
  | String _ s' => re_search p s'
  end.

(** [any(re.search(p, name) for p in patterns)] *)
Definition any_search (patterns : list string) (name : string) : bool :=
  existsb (fun p => re_search p name) patterns.

(* ================================================================== *)
(** ** field_types.py: FieldTypeResolver *)

(** Pydantic's [FieldInfo.json_schema_extra]: unset, a dict, or a callable. *)
Inductive schema_extra :=
  | ExtraNone
  | ExtraDict (entries : list (string * pyval))
  | ExtraCallable.

Record FieldInfo := mkFieldInfo { json_schema_extra : schema_extra }.

(** [key in d] / [d[key]] on a dict with unique keys, kept in insertion order. *)
Fixpoint dict_get (d : list (string * pyval)) (k : string) : option pyval :=
  match d with
  | [] => None
  | (k', v) :: d' => if String.eqb k k' then Some v else dict_get d' k
  end.

Module FieldTypeResolver.

Definition PYTHON_TO_AIRTABLE : list (pytype * AirTableFieldType) :=
  [(TStr, SINGLE_LINE_TEXT); (TInt, NUMBER); (TFloat, NUMBER);
   (TBool, CHECKBOX); (TDatetime, DATETIME); (TDate, DATE);
   (TList, MULTI_SELECT)].

Definition EMAIL_PATTERNS := ["email"; "e_mail"; "mail"; "contact"].
Definition URL_PATTERNS := ["url"; "link"; "website"; "site"; "href"].
Definition PHONE_PATTERNS := ["phone"; "tel"; "mobile"; "cell"].
Definition LONG_TEXT_PATTERNS :=
  ["description"; "comment"; "note"; "bio"; "summary";
   "content"; "body"; "message"; "detail"].
Definition CURRENCY_PATTERNS :=
  ["price"; "cost"; "amount"; "fee"; "salary"; "wage"; "revenue"; "budget"; "payment"].
Definition PERCENT_PATTERNS := ["percent"; "percentage"; "rate"; "ratio"].

(** [key in PYTHON_TO_AIRTABLE] / [PYTHON_TO_AIRTABLE[key]] *)
Fixpoint type_lookup (m : list (pytype * AirTableFieldType)) (k : pytype)
  : option AirTableFieldType :=
  match m with
  | [] => None
  | (k', v) :: m' => if pytype_eqb k k' then Some v else type_lookup m' k
  end.

Definition is_none_type (t : pytype) : bool :=
  match t with TNoneType => true | _ => false end.

(** [_extract_base_type]: a [Union] continues with its first non-[None]
    argument; any other generic gives its origin; a class is itself. *)
Fixpoint _extract_base_type (python_type : pytype) : pytype :=
  match python_type with
  | TUnion args =>
      (fix first_non_none (l : list pytype) : pytype :=
         match l with
         | [] => TUnionForm            (* [if origin: return origin] *)
         | a :: l' => if is_none_type a then first_non_none l'
                      else _extract_base_type a
         end) args
  | TGeneric origin _ => origin
  | _ => python_type
  end.

Definition _is_string_type (python_type : pytype) : bool :=
  pytype_eqb (_extract_base_type python_type) TStr.

Definition _is_enum_type (python_type : pytype) : bool :=
  match _extract_base_type python_type with TEnum _ => true | _ => false end.

Definition _detect_from_field_name (field_name : string) : option AirTableFieldType :=
  let name_lower := lower field_name in
  if any_search EMAIL_PATTERNS name_lower then Some EMAIL
  else if any_search URL_PATTERNS name_lower then Some URL
  else if any_search PHONE_PATTERNS name_lower then Some PHONE
  else if any_search LONG_TEXT_PATTERNS name_lower then Some LONG_TEXT
  else None.

Definition _refine_number_type (field_name : string) : AirTableFieldType :=
  let name_lower := lower field_name in
  if any_search CURRENCY_PATTERNS name_lower then CURRENCY
  else if any_search PERCENT_PATTERNS name_lower then PERCENT
  else NUMBER.

(** Steps 2: [extra = field_info.json_schema_extra or {}] and the
    [isinstance(extra, dict) and 'airtable_field_type' in extra] test. *)
Definition metadata_type (field_info : option FieldInfo) : option pyval :=
  match field_info with
  | None => None
  | Some fi =>
      match json_schema_extra fi with
      | ExtraNone | ExtraCallable => None
      | ExtraDict d => dict_get d "airtable_field_type"
      end
  end.

(** Steps 2 to 6 of [resolve_field_type], after the explicit type. *)
Definition step2 (field_name : string) (python_type : pytype)
    (field_info : option FieldInfo) : pyval :=
  (* 2. Field info metadata *)
  match metadata_type field_info with
  | Some v => v
  | None =>
  (* 3. Smart detection from field name (for string types) *)
  match (if _is_string_type python_type
         then _detect_from_field_name field_name else None) with
  | Some smart_type => PFieldType smart_type
  | None =>
  (* 4. Python type mapping, with the refinement for numbers *)
  match type_lookup PYTHON_TO_AIRTABLE (_extract_base_type python_type) with
  | Some NUMBER => PFieldType (_refine_number_type field_name)
  | Some airtable_type => PFieldType airtable_type
  | None =>
  (* 5. Enums; 6. default fallback *)
  if _is_enum_type python_type then PFieldType SELECT
  else PFieldType SINGLE_LINE_TEXT
  end end end.

Definition resolve_field_type (field_name : string) (python_type : pytype)
    (field_info : option FieldInfo) (explicit_type : option AirTableFieldType)
    : pyval :=
  (* 1. Explicit type takes precedence: [if explicit_type: return explicit_type] *)
  match explicit_type with
  | Some t => if field_type_truthy t then PFieldType t else step2 field_name python_type field_info
  | None => step2 field_name python_type field_info
  end.

End FieldTypeResolver.

(** Name-pattern groups on the lower-cased name, as the claims use them. *)
Definition email_group (n : string) := any_search FieldTypeResolver.EMAIL_PATTERNS (lower n).
Definition url_group (n : string) := any_search FieldTypeResolver.URL_PATTERNS (lower n).
Definition phone_group (n : string) := any_search FieldTypeResolver.PHONE_PATTERNS (lower n).
Definition long_text_group (n : string) := any_search FieldTypeResolver.LONG_TEXT_PATTERNS (lower n).
Definition currency_group (n : string) := any_search FieldTypeResolver.CURRENCY_PATTERNS (lower n).
Definition percent_group (n : string) := any_search FieldTypeResolver.PERCENT_PATTERNS (lower n).

Example resolve_ex1 :
  FieldTypeResolver.resolve_field_type "Work_Email" (Optional TStr) None None = PFieldType EMAIL.
Proof. reflexivity. Qed.
Example resolve_ex2 :
  FieldTypeResolver.resolve_field_type "unit_price" TFloat None None = PFieldType CURRENCY.
Proof. reflexivity. Qed.
Example resolve_ex3 :
  FieldTypeResolver.resolve_field_type "tags" (TGeneric TList [TStr]) None None = PFieldType MULTI_SELECT.
Proof. reflexivity. Qed.

(* ================================================================== *)
(** ** The [datetime] library functions the converters call *)

Module PyDateTime.
Local Open Scope Z_scope.

Definition digit_val (c : ascii) : option Z :=
  let n := nat_of_ascii c in
  if (48 <=? n)%nat && (n <=? 57)%nat then Some (Z.of_nat (n - 48)) else None.

Definition digit_char (d : Z) : ascii := ascii_of_nat (48 + Z.to_nat d).

(** Exactly [k] ASCII digits, read as a decimal number. *)
Fixpoint digits_acc (k : nat) (acc : Z) (s : string) : option (Z * string) :=
  match k with
  | O => Some (acc, s)
  | S k' =>
      match s with
      | EmptyString => None
      | String c s' =>
          match digit_val c with
          | Some d => digits_acc k' (acc * 10 + d) s'
          | None => None
          end
      end
  end.

(** The literal character [c] at the head of [s]. *)
Definition lit (c : ascii) (s : string) : option string :=
  match s with
  | String c' s' => if Ascii.eqb c c' then Some s' else None
  | EmptyString => None
  end.

(** One digit in the class [[lo-hi]]. *)
Definition digit_in (lo hi : Z) (s : string) : option (Z * string) :=
  match s with
  | String c s' =>
      match digit_val c with
      | Some d => if (lo <=? d) && (d <=? hi) then Some (d, s') else None
      | None => None
      end
  | EmptyString => None
  end.

(** Decimal representation of a non-negative integer, ['%d']. *)
Fixpoint dec_aux (fuel : nat) (n : Z) (acc : string) : string :=
  match fuel with
  | O => acc
  | S fuel' =>
      let acc' := String (digit_char (n mod 10)) acc in
      if n <? 10 then acc' else dec_aux fuel' (n / 10) acc'
  end.

Definition dec (n : Z) : string := dec_aux (S (Pos.size_nat (Z.to_pos n))) n EmptyString.

(** The [k] lowest decimal digits of [n], most significant first. *)
Fixpoint zpad (k : nat) (n : Z) : string :=
  match k with
  | O => EmptyString
  | S k' => String (digit_char ((n / 10 ^ Z.of_nat k') mod 10)) (zpad k' n)
  end.

(** ['%0wd'] for a non-negative integer: [w] digits, zero-padded, when the
    number has at most [w] digits, and all its digits otherwise. *)
Definition pad (w : nat) (n : Z) : string :=
  if n <? 10 ^ Z.of_nat w then zpad w n else dec n.

Definition is_leap (y : Z) : bool :=
  (y mod 4 =? 0) && (negb (y mod 100 =? 0) || (y mod 400 =? 0)).

Definition days_in_month (y m : Z) : Z :=
  if (m =? 2) then (if is_leap y then 29 else 28)
  else if (m =? 4) || (m =? 6) || (m =? 9) || (m =? 11) then 30 else 31.

(** The checks of the [date(year, month, day)] constructor (MINYEAR = 1,
    MAXYEAR = 9999); a failed check raises ValueError. *)
Definition valid_date (y m d : Z) : bool :=
  (1 <=? y) && (y <=? 9999) && (1 <=? m) && (m <=? 12) &&
  (1 <=? d) && (d <=? days_in_month y m).

(** *** [datetime.strptime(s, "%Y-%m-%d")]
    [_strptime] compiles the format to the regular expression
    [(?P<Y>\d\d\d\d)-(?P<m>1[0-2]|0[1-9]|[1-9])-(?P<d>3[01]|[12]\d|0[1-9]|[1-9]| [1-9])],
    takes its first match at the start of the string ([re.match], trying
    the alternatives in order and backtracking into them), raises
    ValueError when the match is absent or does not reach the end of the
    string ("unconverted data remains"), and finally builds the date,
    raising ValueError for an impossible day. Strings are ASCII here. *)

Definition month_alts : list (string -> option (Z * string)) :=
  [ (fun s => r ← lit "1" s; '(d, r') ← digit_in 0 2 r; Some (10 + d, r'));
    (fun s => r ← lit "0" s; digit_in 1 9 r);
    (fun s => digit_in 1 9 s) ].

Definition day_alts : list (string -> option (Z * string)) :=
  [ (fun s => r ← lit "3" s; '(d, r') ← digit_in 0 1 r; Some (30 + d, r'));
    (fun s => '(a, r) ← digit_in 1 2 s; '(b, r') ← digit_in 0 9 r; Some (10 * a + b, r'));
    (fun s => r ← lit "0" s; digit_in 1 9 r);
    (fun s => digit_in 1 9 s);
    (fun s => r ← lit " " s; digit_in 1 9 r) ].

(** Ordered alternation followed by the rest [k] of the pattern: the
    first alternative for which the rest matches is taken. *)
Fixpoint first_match {A} (alts : list (string -> option (Z * string))) (s : string)
    (k : Z -> string -> option A) : option A :=
  match alts with
  | [] => None
  | a :: alts' =>
      match a s with
      | Some (v, r) =>
          match k v r with
          | Some x => Some x
          | None => first_match alts' s k
          end
      | None => first_match alts' s k
      end
  end.

(** The [-m-d] part of the pattern after the year; returns the unmatched rest. *)
Definition match_month_day (s : string) : option (Z * Z * string) :=
  first_match month_alts s (fun m r1 =>
    r2 ← lit "-" r1;
    first_match day_alts r2 (fun d rest => Some (m, d, rest))).

Definition strptime_ymd (s : string) : option pydate :=
  '(y, r) ← digits_acc 4 0 s;
  r1 ← lit "-" r;
  '(m, d, rest) ← match_month_day r1;
  match rest with
  | EmptyString => if valid_date y m d then Some (mkDate y m d) else None
  | _ => None   (* unconverted data remains *)
  end.

(** [date.strftime("%Y-%m-%d")]. Years 1000 to 9999 print as four digits.
    Below 1000 the platform's strftime decides (glibc prints ["999"]); the
    zero padding used here for them is not glibc's, and every property
    below about this function assumes a year from 1000. *)
Definition strftime_ymd (d : pydate) : string :=
  pad 4 (d_year d) ++ "-" ++ pad 2 (d_month d) ++ "-" ++ pad 2 (d_day d).

(** *** [datetime.fromisoformat(s)]
    The grammar documented for Python 3.7 to 3.10:
    [YYYY-MM-DD[*HH[:MM[:SS[.fff[fff]]]][+HH:MM[:SS[.ffffff]]]]], where [*]
    is any single character, followed by the range checks of the
    [datetime] and [timezone] constructors; ValueError is [None]. Python
    3.11 accepts more strings (among them a trailing [Z]); on the strings
    this development evaluates, all versions agree; in particular every
    string [isoformat] writes is read alike by all of them. The converters
    below take the parser as an argument, so that a property can be stated
    for the [fromisoformat] of any version. *)

Definition parse_time (s : string) : option (Z * Z * Z * Z * string) :=
  '(h, r) ← digits_acc 2 0 s;
  match lit ":" r with
  | None => Some (h, 0, 0, 0, r)
  | Some r1 =>
      '(mi, r2) ← digits_acc 2 0 r1;
      match lit ":" r2 with
      | None => Some (h, mi, 0, 0, r2)
      | Some r3 =>
          '(se, r4) ← digits_acc 2 0 r3;
          match lit "." r4 with
          | None => Some (h, mi, se, 0, r4)
          | Some r5 =>
              match digits_acc 6 0 r5 with
              | Some (us, r6) => Some (h, mi, se, us, r6)
              | None => '(ms, r6) ← digits_acc 3 0 r5; Some (h, mi, se, ms * 1000, r6)
              end
          end
      end
  end.

Definition US_PER_DAY : Z := 86400 * 1000000.

(** The UTC offset [+HH:MM[:SS[.ffffff]]], in microseconds; [timezone]
    requires it to lie strictly within one day. CPython's parser returns
    [timezone.utc] when the offset's whole seconds are 0, dropping a
    sub-second part (so [+00:00:00.003600] reads as [+00:00]). *)
Definition parse_tz (s : string) : option (option Z) :=
  match s with
  | EmptyString => Some None
  | String c r =>
      sign ← (if Ascii.eqb c "+" then Some 1 else if Ascii.eqb c "-" then Some (-1) else None);
      '(h, r1) ← digits_acc 2 0 r;
      r2 ← lit ":" r1;
      '(mi, r3) ← digits_acc 2 0 r2;
      '(se, us, r4) ←
        match lit ":" r3 with
        | None => Some (0, 0, r3)
        | Some r5 =>
            '(se, r6) ← digits_acc 2 0 r5;
            match lit "." r6 with
            | None => Some (se, 0, r6)
            | Some r7 => '(us, r8) ← digits_acc 6 0 r7; Some (se, us, r8)
            end
        end;
      match r4 with
      | EmptyString =>
          (* [tzinfo_from_isoformat_results]: an offset of 0 whole seconds
             gives [timezone.utc], whatever its microseconds *)
          let secs := (h * 60 + mi) * 60 + se in
          if secs =? 0 then Some (Some 0) else
          let off := sign * (secs * 1000000 + us) in
          if (- US_PER_DAY <? off) && (off <? US_PER_DAY) then Some (Some off) else None
      | _ => None
      end
  end.

Definition valid_time (h mi se us : Z) : bool :=
  (0 <=? h) && (h <=? 23) && (0 <=? mi) && (mi <=? 59) &&
  (0 <=? se) && (se <=? 59) && (0 <=? us) && (us <=? 999999).

Definition fromisoformat (s : string) : option pydatetime :=
  '(y, r) ← digits_acc 4 0 s;
  r1 ← lit "-" r;
  '(m, r2) ← digits_acc 2 0 r1;
  r3 ← lit "-" r2;
  '(d, r4) ← digits_acc 2 0 r3;
  if negb (valid_date y m d) then None else
  match r4 with
  | EmptyString => Some (mkDateTime (mkDate y m d) 0 0 0 0 None)
  | String _ t =>
      '(h, mi, se, us, r5) ← parse_time t;
      tz ← parse_tz r5;
      if valid_time h mi se us
      then Some (mkDateTime (mkDate y m d) h mi se us tz) else None
  end.

(** [_format_offset] as used by [isoformat]. *)
Definition format_offset (off : Z) : string :=
  let sign := if off <? 0 then "-" else "+" in
  let a := Z.abs off in
  let hh := a / 3600000000 in
  let rem := a mod 3600000000 in
  let mm := rem / 60000000 in
  let ss := rem mod 60000000 in
  sign ++ pad 2 hh ++ ":" ++ pad 2 mm ++
  (if ss =? 0 then ""
   else ":" ++ pad 2 (ss / 1000000) ++
        (if ss mod 1000000 =? 0 then "" else "." ++ pad 6 (ss mod 1000000))).

(** [datetime.isoformat()] with the default separator ['T']. *)
Definition isoformat (dt : pydatetime) : string :=
  pad 4 (d_year (dt_date dt)) ++ "-" ++ pad 2 (d_month (dt_date dt)) ++ "-" ++
  pad 2 (d_day (dt_date dt)) ++ "T" ++
  pad 2 (dt_hour dt) ++ ":" ++ pad 2 (dt_minute dt) ++ ":" ++ pad 2 (dt_second dt) ++
  (if dt_micro dt =? 0 then "" else "." ++ pad 6 (dt_micro dt)) ++
  match dt_tz dt with None => "" | Some off => format_offset off end.

(** [str.replace(c, r)]: every occurrence of the character [c]. *)
Fixpoint replace_char (c : ascii) (r s : string) : string :=
  match s with
  | EmptyString => EmptyString
  | String c' s' => if Ascii.eqb c c' then r ++ replace_char c r s' else String c' (replace_char c r s')
  end.

(** [timedelta(seconds=n)] for an integer [n], in microseconds; raises
    OverflowError outside [-999999999 <= days <= 999999999]. *)
Definition timedelta_seconds (n : Z) : option Z :=
  let days := n / 86400 in
  if (-999999999 <=? days) && (days <=? 999999999) then Some (n * 1000000) else None.

(** [p / q] rounded to the nearest integer, ties to even ([q > 0]). *)
Definition round_half_even (p q : Z) : Z :=
  let n := p / q in
  let r := p mod q in
  if 2 * r <? q then n
  else if q <? 2 * r then n + 1
  else if Z.even n then n else n + 1.

(** [int(a / den)] for integers [0 <= a] and [0 < den]: Python's true
    division of integers is correctly rounded (to nearest, ties to even) to
    a binary64 float, whose significand has 53 bits, and [int] truncates.
    For [a / den >= 1] with [2 ^ e <= a / den < 2 ^ (e + 1)] the float is a
    multiple of [2 ^ (e - 52)]; below 1 the float stays below 1, since
    [a / den <= 1 - 1 / den]. *)
Definition int_of_float_div (a den : Z) : Z :=
  let n := a / den in
  if n =? 0 then 0 else
  let k := 52 - Z.log2 n in
  if 0 <=? k then round_half_even (a * 2 ^ k) den / 2 ^ k
  else round_half_even a (den * 2 ^ (- k)) * 2 ^ (- k).

(** [int(td.total_seconds())]: [total_seconds()] is the float
    [microseconds / 10**6] and [int] truncates it toward zero. *)
Definition int_total_seconds (us : Z) : Z :=
  if us <? 0 then - int_of_float_div (- us) 1000000 else int_of_float_div us 1000000.

(** The invariant every [datetime] object satisfies: the checks its
    constructor and its [timezone] make. *)
Definition valid_datetime (dt : pydatetime) : bool :=
  valid_date (d_year (dt_date dt)) (d_month (dt_date dt)) (d_day (dt_date dt)) &&
  valid_time (dt_hour dt) (dt_minute dt) (dt_second dt) (dt_micro dt) &&
  match dt_tz dt with
  | None => true
  | Some off => (- US_PER_DAY <? off) && (off <? US_PER_DAY)
  end.

End PyDateTime.

(* ================================================================== *)
(** ** fields.py: TypeMapper *)

(** Python truthiness of the values in play. *)
Definition truthy (v : pyval) : bool :=
  match v with
  | PNone => false
  | PBool b => b
  | PInt z => negb (Z.eqb z 0)
  | PStr s => str_truthy s
  | PFieldType t => field_type_truthy t
  | PDate _ | PDateTime _ => true
  | PTimedelta us => negb (Z.eqb us 0)
  end.

(** The result of a call: a value, or the exception it raises. *)
Inductive outcome := Ret (v : pyval) | Raise (exc : string).

(** What [format_value_for_airtable] hands to the API. [FFloat v] stands
    for Python's [float(v)] in the numeric branch: its value, or the
    ValueError or TypeError it raises for a string, date or timedelta [v];
    nothing below inspects it. JSON numbers are modelled as integers. *)
Inductive formatted := FVal (v : pyval) | FFloat (v : pyval).

Module TypeMapper.

Definition TYPE_MAPPING : list (pytype * AirTableFieldType) :=
  [(TStr, SINGLE_LINE_TEXT); (TInt, NUMBER); (TFloat, NUMBER); (TBool, CHECKBOX);
   (TDatetime, DATETIME); (TDate, DATE); (TTimedelta, DURATION)].

Definition get_airtable_type (python_type : pytype) : AirTableFieldType :=
  match FieldTypeResolver.type_lookup TYPE_MAPPING python_type with
  | Some t => t
  | None => SINGLE_LINE_TEXT
  end.

Definition format_value_for_airtable (value : pyval) (field_type : AirTableFieldType)
    : formatted :=
  match value with
  | PNone => FVal PNone
  | _ =>
      match field_type with
      | DATETIME =>
          match value with
          | PDateTime d => FVal (PStr (PyDateTime.isoformat d))
          | _ => FVal value
          end
      | DATE =>
          match value with
          | PDateTime d => FVal (PStr (PyDateTime.strftime_ymd (dt_date d)))
          | PDate d => FVal (PStr (PyDateTime.strftime_ymd d))
          | _ => FVal value
          end
      | DURATION =>
          match value with
          | PTimedelta us => FVal (PInt (PyDateTime.int_total_seconds us))
          | PInt z => FVal (PInt z)
          | PBool b => FVal (PInt (if b then 1 else 0)%Z)
          | _ => FVal value
          end
      | CHECKBOX => FVal (PBool (truthy value))
      | NUMBER | CURRENCY | PERCENT =>
          match value with
          | PBool _ => FVal value
          | _ => FFloat value
          end
      | _ => FVal value
      end
  end.

Definition timedelta_of_seconds (n : Z) : outcome :=
  match PyDateTime.timedelta_seconds n with
  | Some us => Ret (PTimedelta us)
  | None => Raise "OverflowError"
  end.

(** [parse_value_from_airtable], over the [datetime.fromisoformat] of the
    Python version that runs it. *)
Definition parse_value_from_airtable_with (fromisoformat : string -> option pydatetime)
    (value : pyval) (field_type : AirTableFieldType) : outcome :=
  match value with
  | PNone => Ret PNone
  | _ =>
      match field_type with
      | DATETIME =>
          match value with
          | PStr s =>
              (* try: datetime.fromisoformat(value.replace('Z', '+00:00'))
                 except ValueError: return value *)
              match fromisoformat (PyDateTime.replace_char "Z" "+00:00" s) with
              | Some d => Ret (PDateTime d)
              | None => Ret value
              end
          | _ => Ret value
          end
      | DATE =>
          match value with
          | PStr s =>
              (* try: datetime.strptime(value, "%Y-%m-%d").date()
                 except ValueError: return value *)
              match PyDateTime.strptime_ymd s with
              | Some d => Ret (PDate d)
              | None => Ret value
              end
          | _ => Ret value
          end
      | DURATION =>
          match value with
          | PInt n => timedelta_of_seconds n
          | PBool b => timedelta_of_seconds (if b then 1 else 0)%Z
          | _ => Ret value
          end
      | CHECKBOX => Ret (PBool (truthy value))
      | _ => Ret value
      end
  end.

(** [parse_value_from_airtable] with the [fromisoformat] modelled above. *)
Definition parse_value_from_airtable (value : pyval) (field_type : AirTableFieldType)
    : outcome :=
  parse_value_from_airtable_with PyDateTime.fromisoformat value field_type.

(** Serializing what was deserialized. *)
Definition roundtrip (x : pyval) (field_type : AirTableFieldType) : option formatted :=
  match parse_value_from_airtable x field_type with
  | Ret v => Some (format_value_for_airtable v field_type)
  | Raise _ => None
  end.

End TypeMapper.

(* ================================================================== *)
(** ** config.py: AirTableConfig *)

Record AirTableConfig := mkConfig {
  access_token : string;
  base_id : string;
  table_name : option string }.

(** Constructing a config returns it, or raises ConfigurationError. *)
Inductive config_result :=
  | ConfigOk (c : AirTableConfig)
  | ConfigurationError (msg : string).

(** [str.startswith] *)
Definition startswith (s prefix : string) : bool := starts_with prefix s.

(** The dataclass constructor followed by [__post_init__]. *)
Definition AirTableConfig_new (access_token base_id : string) (table_name : option string)
    : config_result :=
  if negb (str_truthy access_token) then
    ConfigurationError "AirTable Personal Access Token is required."
  else if negb (str_truthy base_id) then
    ConfigurationError "AirTable Base ID is required."
  else if negb (startswith access_token "pat") then
    ConfigurationError "Invalid access token format."
  else if negb (startswith base_id "app") then
    ConfigurationError "Invalid base ID format."
  else ConfigOk (mkConfig access_token base_id table_name).

(** The process environment, as [os.getenv] sees it. *)
Definition environ := string -> option string.

(** [os.getenv(name, default)] *)
Definition getenv_default (env : environ) (name default : string) : string :=
  match env name with Some v => v | None => default end.

(** [x or y] for an optional string [x]. *)
Definition str_or (x : option string) (y : string) : string :=
  match x with Some s => if str_truthy s then s else y | None => y end.

Definition opt_str_or (x : option string) (y : option string) : option string :=
  match x with Some s => if str_truthy s then Some s else y | None => y end.

Definition from_env (env : environ) (access_token base_id table_name : option string)
    (env_prefix : string) : config_result :=
  AirTableConfig_new
    (str_or access_token (getenv_default env (env_prefix ++ "ACCESS_TOKEN") ""))
    (str_or base_id (getenv_default env (env_prefix ++ "BASE_ID") ""))
    (opt_str_or table_name (env (env_prefix ++ "TABLE_NAME"))).

Definition is_config_error (r : config_result) : bool :=
  match r with ConfigurationError _ => true | ConfigOk _ => false end.

(** Python objects live in a heap; [with_table] reads the config at [self]
    and allocates the new one at a fresh location, whose reference it
    returns, or raises. A dangling [self] cannot occur and gives [None]. *)
Definition loc := nat.
Definition heap := gmap loc AirTableConfig.

Inductive call_result := Returned (l : loc) | Raised (msg : string).

Definition with_table (h : heap) (self : loc) (table_name : string)
    : option (call_result * heap) :=
  c ← h !! self;
  match AirTableConfig_new (access_token c) (base_id c) (Some table_name) with
  | ConfigOk c' =>
      let l := fresh (dom h) in
      Some (Returned l, <[l := c']> h)
  | ConfigurationError msg => Some (Raised msg, h)
  end.

(* ================================================================== *)
(** ** Field declarations carrying AirTable metadata *)

Definition opt_str_val (o : option string) : pyval :=
  match o with Some s => PStr s | None => PNone end.

Definition opt_field_type_val (o : option AirTableFieldType) : pyval :=
  match o with Some t => PFieldType t | None => PNone end.

(** [fields.AirTableField(airtable_field_name, airtable_field_type, read_only)]
    without a [json_schema_extra] keyword: the dict starts as [{}] and its
    [update] always writes the three keys, [None] values included. *)
Definition AirTableField (airtable_field_name : option string)
    (airtable_field_type : option AirTableFieldType) (read_only : bool) : FieldInfo :=
  mkFieldInfo (ExtraDict
    [("airtable_field_name", opt_str_val airtable_field_name);
     ("airtable_field_type", opt_field_type_val airtable_field_type);
     ("airtable_read_only", PBool read_only)]).

(** [field_types.airtable_field(field_type=, field_name=, read_only=)]
    without [choices] nor [json_schema_extra]: a key is only added when its
    argument is truthy, and [{**{}, **airtable_metadata}] is the metadata. *)
Definition airtable_field (field_type : option AirTableFieldType)
    (field_name : option string) (read_only : bool) : FieldInfo :=
  mkFieldInfo (ExtraDict
    ((match field_type with
      | Some t => if field_type_truthy t then [("airtable_field_type", PFieldType t)] else []
      | None => []
      end) ++
     (match field_name with
      | Some n => if str_truthy n then [("airtable_field_name", PStr n)] else []
      | None => []
      end) ++
     (if read_only then [("airtable_read_only", PBool true)] else []))%list).

(** *** The [json_schema_extra] dict as a shared object
    Dicts live in a heap of their own; a field declaration keeps a
    reference to its [json_schema_extra] dict, as [Field(json_schema_extra=d)]
    stores [d] itself. A [json_schema_extra] keyword is taken to be a dict
    (or absent) here. *)
Definition dict_heap := gmap loc (list (string * pyval)).

(** [d[k] = v]: an existing key keeps its position, a new one goes last. *)
Fixpoint dict_set (d : list (string * pyval)) (k : string) (v : pyval) : list (string * pyval) :=
  match d with
  | [] => [(k, v)]
  | (k', v') :: d' => if String.eqb k k' then (k', v) :: d' else (k', v') :: dict_set d' k v
  end.

(** [d.update(kvs)], and the [{**d, **kvs}] merge on a copy. *)
Definition dict_update (d : list (string * pyval)) (kvs : list (string * pyval))
    : list (string * pyval) :=
  fold_left (fun acc kv => dict_set acc kv.1 kv.2) kvs d.

(** [AirTableField(...)]: [json_schema_extra = kwargs.get("json_schema_extra", {})]
    is the caller's dict when one is passed, and [update] mutates it in
    place; the field refers to that dict. Returns the dict's location. *)
Definition AirTableField_obj (h : dict_heap) (json_schema_extra : option loc)
    (airtable_field_name : option string) (airtable_field_type : option AirTableFieldType)
    (read_only : bool) : option (loc * dict_heap) :=
  let '(l, h1) :=
    match json_schema_extra with
    | Some l => (l, h)
    | None => let l := fresh (dom h) in (l, <[l := []]> h)
    end in
  d ← h1 !! l;
  Some (l, <[l := dict_update d
                   [("airtable_field_name", opt_str_val airtable_field_name);
                    ("airtable_field_type", opt_field_type_val airtable_field_type);
                    ("airtable_read_only", PBool read_only)]]> h1).

(** The [airtable_metadata] dict [airtable_field] builds. *)
Definition airtable_metadata (field_type : option AirTableFieldType)
    (field_name : option string) (read_only : bool) : list (string * pyval) :=
  match json_schema_extra (airtable_field field_type field_name read_only) with
  | ExtraDict d => d
  | _ => []
  end.

(** [airtable_field(...)] with a dict [json_schema_extra]: the field gets
    the new dict [{**(existing_extra or {}), **airtable_metadata}]. *)
Definition airtable_field_obj (h : dict_heap) (json_schema_extra : option loc)
    (field_type : option AirTableFieldType) (field_name : option string) (read_only : bool)
    : option (loc * dict_heap) :=
  existing_extra ← match json_schema_extra with Some l => h !! l | None => Some [] end;
  let l := fresh (dom h) in
  Some (l, <[l := dict_update existing_extra (airtable_metadata field_type field_name read_only)]> h).

(* ================================================================== *)
(** ** Batched creation of records *)

(** Modelled from the spec: [AirTableModel.bulk_create] and the client's
    batch create call, whose module ([models.py], [client.py]) is not part
    of the sources at hand. Following the spec, [bulk_create] splits the
    list of record dicts into consecutive groups of at most 10 (Airtable's
    batch-size limit), issues one create call per group, one after the
    other, and returns the created Record Instances in input order; each
    call lets the server assign ids to the records of its batch and answer
    them in the order sent. *)
Module BulkCreate.

Definition record_fields := list (string * pyval).

Record RecordInstance := mkInstance { rec_id : nat; rec_fields : record_fields }.

(** The server side: the next id to assign, and the batches received. *)
Record server := mkServer { next_id : nat; calls : list (list record_fields) }.

Definition BATCH_SIZE : nat := 10.

Fixpoint batches_aux (fuel : nat) (l : list record_fields) : list (list record_fields) :=
  match fuel with
  | O => []
  | S fuel' =>
      match l with
      | [] => []
      | _ => take BATCH_SIZE l :: batches_aux fuel' (drop BATCH_SIZE l)
      end
  end.

(** [records[i:i + 10] for i in range(0, len(records), 10)] *)
Definition batches (l : list record_fields) : list (list record_fields) :=
  batches_aux (length l) l.

Fixpoint assign_ids (n : nat) (batch : list record_fields) : list RecordInstance :=
  match batch with
  | [] => []
  | f :: batch' => mkInstance n f :: assign_ids (S n) batch'
  end.

(** One create call with one batch. *)
Definition create_records (batch : list record_fields) (s : server)
    : list RecordInstance * server :=
  (assign_ids (next_id s) batch,
   mkServer (next_id s + length batch) (calls s ++ [batch])%list).

Fixpoint run_batches (bs : list (list record_fields)) (s : server)
    : list RecordInstance * server :=
  match bs with
  | [] => ([], s)
  | b :: bs' =>
      let '(created, s1) := create_records b s in
      let '(rest, s2) := run_batches bs' s1 in
      ((created ++ rest)%list, s2)
  end.

Definition bulk_create (records : list record_fields) (s : server)
    : list RecordInstance * server :=
  run_batches (batches records) s.

End BulkCreate.

(* ================================================================== *)
(** ** config.py: table names and the global configuration *)

(** The outcome of [validate_table_name]: the name, or ConfigurationError. *)
Inductive name_result :=
  | NameOk (name : string)
  | NameError (msg : string).

(** [AirTableConfig.validate_table_name]: [name = table_name or self.table_name],
    and ConfigurationError when [not name]. *)
Definition validate_table_name (self : AirTableConfig) (table_name' : option string)
    : name_result :=
  let err := NameError
    "Table name is required. Specify it in AirTableConfig or pass as argument." in
  match opt_str_or table_name' (table_name self) with
  | Some name => if str_truthy name then NameOk name else err
  | None => err
  end.

(** The module-level [_global_config]. *)
Definition global_config := option AirTableConfig.

Definition set_global_config (config : AirTableConfig) (g : global_config) : global_config :=
  Some config.

Definition get_global_config (g : global_config) : config_result :=
  match g with
  | None => ConfigurationError
      "No global configuration set. Call set_global_config() first or use AirTableConfig.from_env() to create from environment variables."
  | Some c => ConfigOk c
  end.

(** [configure_from_env( **overrides)], the overrides being [from_env]'s
    keyword arguments: when [from_env] raises, the exception propagates
    before [set_global_config] runs. *)
Definition configure_from_env (env : environ) (access_token base_id table_name : option string)
    (env_prefix : string) (g : global_config) : config_result * global_config :=
  match from_env env access_token base_id table_name env_prefix with
  | ConfigOk config => (ConfigOk config, set_global_config config g)
  | ConfigurationError msg => (ConfigurationError msg, g)
  end.

(* ================================================================== *)
(** ** field_types.py: FieldTypeResolver.get_field_options *)

(** Keyword-argument values and option values: Python scalars, lists and
    dicts (with string keys, in insertion order). *)
Inductive optval :=
  | OVal (v : pyval)
  | OList (items : list optval)
  | ODict (entries : list (string * optval)).

Definition opt_truthy (o : optval) : bool :=
  match o with
  | OVal v => truthy v
  | OList l => match l with [] => false | _ => true end
  | ODict d => match d with [] => false | _ => true end
  end.

(** The one-character strings of [s], as iterating over a [str] gives them. *)
Definition str_chars (s : string) : list optval :=
  map (fun c => OVal (PStr (String c EmptyString))) (list_ascii_of_string s).

(** [for x in o]: lists give their items, dicts their keys, strings (and
    members of the [str]-mixin enum) their characters; any other value
    raises TypeError, here [None]. *)
Definition py_iter (o : optval) : option (list optval) :=
  match o with
  | OList l => Some l
  | ODict d => Some (map (fun kv => OVal (PStr kv.1)) d)
  | OVal (PStr s) => Some (str_chars s)
  | OVal (PFieldType t) => Some (str_chars (field_type_value t))
  | OVal _ => None
  end.

(** [kwargs.get(key, default)] *)
Fixpoint kwargs_get (kwargs : list (string * optval)) (key : string) (default : optval) : optval :=
  match kwargs with
  | [] => default
  | (k, v) :: kwargs' => if String.eqb key k then v else kwargs_get kwargs' key default
  end.

(** [get_field_options(field_type, **kwargs)]; [None] is the TypeError of
    iterating over a non-iterable [choices]. *)
Definition get_field_options (field_type : AirTableFieldType) (kwargs : list (string * optval))
    : option (list (string * optval)) :=
  match field_type with
  | CHECKBOX =>
      Some [("icon", kwargs_get kwargs "icon" (OVal (PStr "check")));
            ("color", kwargs_get kwargs "color" (OVal (PStr "greenBright")))]
  | SELECT =>
      let choices := kwargs_get kwargs "choices" (OList []) in
      if opt_truthy choices then
        items ← py_iter choices;
        Some [("choices", OList (map (fun choice => ODict [("name", choice)]) items))]
      else Some []
  | MULTI_SELECT =>
      let choices := kwargs_get kwargs "choices" (OList []) in
      if opt_truthy choices then
        items ← py_iter choices;
        Some [("choices", OList (map (fun choice => ODict [("name", choice)]) items))]
      else Some []
  | CURRENCY =>
      Some [("precision", kwargs_get kwargs "precision" (OVal (PInt 2)));
            ("symbol", kwargs_get kwargs "symbol" (OVal (PStr "$")))]
  | PERCENT =>
      Some [("precision", kwargs_get kwargs "precision" (OVal (PInt 1)))]
  | _ => Some []
  end.

(** The keyword names [get_field_options] reads. *)
Definition option_keys : list string := ["icon"; "color"; "choices"; "precision"; "symbol"].

(* ================================================================== *)
(** ** Converting a Python value and reading it back *)

(** A [timedelta] object: at most 999999999 days either way. *)
Definition valid_timedelta (us : Z) : bool :=
  (-999999999 <=? us / PyDateTime.US_PER_DAY)%Z && (us / PyDateTime.US_PER_DAY <=? 999999999)%Z.

(** [timedelta.max], in microseconds: 999999999 days, 23:59:59.999999. *)
Definition timedelta_max : Z :=
  (999999999 * PyDateTime.US_PER_DAY + (PyDateTime.US_PER_DAY - 1))%Z.

(** A datetime whose UTC offset [fromisoformat] reads back as [isoformat]
    writes it: none, zero, or at least one second either way. *)
Definition offset_reloads (dt : pydatetime) : bool :=
  match dt_tz dt with
  | None => true
  | Some off => (off =? 0)%Z || (1000000 <=? Z.abs off)%Z
  end.

(** [parse_value_from_airtable(format_value_for_airtable(v, ft), ft)] when
    the formatted value is not a float. *)
Definition parse_of_format (v : pyval) (field_type : AirTableFieldType) : option outcome :=
  match TypeMapper.format_value_for_airtable v field_type with
  | FVal w => Some (TypeMapper.parse_value_from_airtable w field_type)
  | FFloat _ => None
  end.

(* ================================================================== *)
(** * Theorems *)

Import FieldTypeResolver.

Lemma field_type_truthy_all (t : AirTableFieldType) : field_type_truthy t = true.
Proof. destruct t; reflexivity. Qed.

Lemma resolve_no_explicit_no_info (name : string) (t : pytype) :
  resolve_field_type name t None None = step2 name t None.
Proof. reflexivity. Qed.

Lemma step2_string (name : string) (t : pytype) :
  _extract_base_type t = TStr ->
  step2 name t None =
  match _detect_from_field_name name with
  | Some s => PFieldType s
  | None => PFieldType SINGLE_LINE_TEXT
  end.
Proof.
  intros H. unfold step2, _is_string_type. simpl metadata_type. rewrite H.
  simpl pytype_eqb. cbv iota. destruct (_detect_from_field_name name); reflexivity.
Qed.

(** C1. For a field whose declared type is or unwraps to [str], with no
    explicit type and no field info, the lower-cased name decides the
    type: EMAIL for the email group, else URL for the url group, else
    PHONE for the phone group, else LONG_TEXT for the long-text group,
    and SINGLE_LINE_TEXT when no group matches. *)
Theorem resolve_string_field_by_name (name : string) (t : pytype)
    (Hstr : _extract_base_type t = TStr) :
  (email_group name = true ->
     resolve_field_type name t None None = PFieldType EMAIL) /\
  (email_group name = false -> url_group name = true ->
     resolve_field_type name t None None = PFieldType URL) /\
  (email_group name = false -> url_group name = false -> phone_group name = true ->
     resolve_field_type name t None None = PFieldType PHONE) /\
  (email_group name = false -> url_group name = false -> phone_group name = false ->
   long_text_group name = true ->
     resolve_field_type name t None None = PFieldType LONG_TEXT) /\
  (email_group name = false -> url_group name = false -> phone_group name = false ->
   long_text_group name = false ->
     resolve_field_type name t None None = PFieldType SINGLE_LINE_TEXT).
Proof.
  rewrite resolve_no_explicit_no_info, (step2_string name t Hstr).
  unfold _detect_from_field_name, email_group, url_group, phone_group, long_text_group.
  repeat split; intros;
    repeat match goal with H : _ = _ |- _ => rewrite H end; reflexivity.
Qed.

(** C2. An explicit AirTable type is always the result, whatever the name,
    the declared type and the field info; without one, an
    [airtable_field_type] entry of a dict [json_schema_extra] is returned
    ahead of name detection and type mapping. *)
Theorem resolve_explicit_then_metadata :
  (forall (name : string) (t : pytype) (fi : option FieldInfo) (e : AirTableFieldType),
      resolve_field_type name t fi (Some e) = PFieldType e) /\
  (forall (name : string) (t : pytype) (d : list (string * pyval)) (v : pyval),
      dict_get d "airtable_field_type" = Some v ->
      resolve_field_type name t (Some (mkFieldInfo (ExtraDict d))) None = v).
Proof.
  split.
  - intros name t fi e. unfold resolve_field_type. now rewrite field_type_truthy_all.
  - intros name t d v Hd. unfold resolve_field_type, step2, metadata_type. simpl.
    now rewrite Hd.
Qed.

Lemma step2_number (name : string) (t : pytype) :
  _extract_base_type t = TInt \/ _extract_base_type t = TFloat ->
  step2 name t None = PFieldType (_refine_number_type name).
Proof.
  intros [H | H]; unfold step2, _is_string_type; simpl metadata_type; rewrite H;
    reflexivity.
Qed.

(** C7. For a field whose base type is [int] or [float], with no explicit
    type and no field info: CURRENCY when the lower-cased name matches a
    currency pattern; otherwise PERCENT when it matches a percent
    pattern; otherwise NUMBER. *)
Theorem resolve_number_field_by_name (name : string) (t : pytype)
    (Hnum : _extract_base_type t = TInt \/ _extract_base_type t = TFloat) :
  (currency_group name = true ->
     resolve_field_type name t None None = PFieldType CURRENCY) /\
  (currency_group name = false -> percent_group name = true ->
     resolve_field_type name t None None = PFieldType PERCENT) /\
  (currency_group name = false -> percent_group name = false ->
     resolve_field_type name t None None = PFieldType NUMBER).
Proof.
  rewrite resolve_no_explicit_no_info, (step2_number name t Hnum).
  unfold _refine_number_type, currency_group, percent_group.
  repeat split; intros;
    repeat match goal with H : any_search _ _ = _ |- _ => rewrite H end; reflexivity.
Qed.

(** ** Value conversion *)

Section DigitLemmas.
Import PyDateTime.
Local Open Scope Z_scope.

Definition Zrange (lo n : Z) : list Z :=
  map (fun i => lo + Z.of_nat i) (seq 0 (Z.to_nat n)).

Lemma forallb_Zrange (f : Z -> bool) (lo n : Z) (z : Z) :
  forallb f (Zrange lo n) = true -> lo <= z < lo + n -> f z = true.
Proof.
  intros Hall Hz. apply (proj1 (forallb_forall f _) Hall).
  apply in_map_iff. exists (Z.to_nat (z - lo)). split.
  - lia.
  - apply in_seq. lia.
Qed.

Lemma digits_acc_app (k : nat) (acc v : Z) (s r : string) :
  digits_acc k acc s = Some (v, EmptyString) -> digits_acc k acc (s ++ r) = Some (v, r).
Proof.
  revert acc s. induction k as [|k IH]; intros acc s H.
  - simpl in H. injection H as Hacc Hs. subst. reflexivity.
  - destruct s as [|c s]; simpl in H |- *; [discriminate|].
    destruct (digit_val c); [|discriminate]. now apply IH.
Qed.

Lemma lit_same (c : ascii) (s : string) : lit c (String c s) = Some s.
Proof. unfold lit. now rewrite Ascii.eqb_refl. Qed.

Lemma digit_val_char (d : Z) : 0 <= d <= 9 -> digit_val (digit_char d) = Some d.
Proof.
  intros Hd.
  assert (d = 0 \/ d = 1 \/ d = 2 \/ d = 3 \/ d = 4 \/ d = 5 \/ d = 6 \/ d = 7 \/ d = 8 \/ d = 9)
    as Hc by lia.
  repeat destruct Hc as [-> | Hc]; try reflexivity; subst; reflexivity.
Qed.

Lemma mod_mul_split (a b c : Z) :
  0 < b -> 0 < c -> a mod (b * c) = a mod b + b * ((a / b) mod c).
Proof.
  intros Hb Hc. symmetry. apply Z.mod_unique with (q := a / b / c).
  - left. pose proof (Z.mod_pos_bound a b Hb). pose proof (Z.mod_pos_bound (a / b) c Hc). nia.
  - pose proof (Z.div_mod a b ltac:(lia)). pose proof (Z.div_mod (a / b) c ltac:(lia)). nia.
Qed.

Lemma zpad_digits (k : nat) (acc n : Z) (r : string) :
  0 <= n ->
  digits_acc k acc (zpad k n ++ r) = Some (acc * 10 ^ Z.of_nat k + n mod 10 ^ Z.of_nat k, r).
Proof.
  intros Hn. revert acc. induction k as [|k IH]; intros acc.
  - simpl. f_equal. f_equal. rewrite Z.mod_1_r. lia.
  - assert (Hp : 0 < 10 ^ Z.of_nat k) by (apply Z.pow_pos_nonneg; lia).
    pose proof (Z.mod_pos_bound (n / 10 ^ Z.of_nat k) 10 ltac:(lia)) as Hq.
    change (zpad (S k) n ++ r)
      with (String (digit_char ((n / 10 ^ Z.of_nat k) mod 10)) (zpad k n ++ r)).
    cbn [digits_acc]. rewrite digit_val_char by lia. rewrite IH.
    rewrite Nat2Z.inj_succ, Z.pow_succ_r by lia.
    rewrite (Z.mul_comm 10 (10 ^ Z.of_nat k)), mod_mul_split by lia.
    f_equal. f_equal. ring.
Qed.

Lemma pad_digits (w : nat) (n : Z) (r : string) :
  0 <= n < 10 ^ Z.of_nat w -> digits_acc w 0 (pad w n ++ r) = Some (n, r).
Proof.
  intros Hn. unfold pad. replace (n <? 10 ^ Z.of_nat w) with true by (symmetry; apply Z.ltb_lt; lia).
  rewrite zpad_digits by lia. rewrite Z.mod_small by lia. reflexivity.
Qed.

Lemma string_app_empty_r (s : string) : s ++ EmptyString = s.
Proof.
  induction s as [|c s IH]; [reflexivity|].
  change (String c (s ++ EmptyString) = String c s). now rewrite IH.
Qed.

Lemma pad_digits_end (w : nat) (n : Z) :
  0 <= n < 10 ^ Z.of_nat w -> digits_acc w 0 (pad w n) = Some (n, EmptyString).
Proof.
  intros Hn. rewrite <- (pad_digits w n EmptyString Hn). f_equal.
  symmetry. apply string_app_empty_r.
Qed.

Lemma month_day_check :
  forallb (fun m => forallb (fun d =>
     bool_decide (match_month_day (pad 2 m ++ "-" ++ pad 2 d) = Some (m, d, EmptyString)))
     (Zrange 1 31)) (Zrange 1 12) = true.
Proof. vm_compute. reflexivity. Qed.

Lemma month_day_padded (m d : Z) :
  1 <= m <= 12 -> 1 <= d <= 31 ->
  match_month_day (pad 2 m ++ "-" ++ pad 2 d) = Some (m, d, EmptyString).
Proof.
  intros Hm Hd. apply (bool_decide_eq_true_1 _).
  pose proof (forallb_Zrange _ 1 12 m month_day_check ltac:(lia)) as Hrow.
  exact (forallb_Zrange _ 1 31 d Hrow ltac:(lia)).
Qed.

Lemma days_in_month_le_31 (y m : Z) : days_in_month y m <= 31.
Proof. unfold days_in_month. repeat case_match; lia. Qed.

Lemma strptime_strftime (y m d : Z) :
  valid_date y m d = true ->
  strptime_ymd (strftime_ymd (mkDate y m d)) = Some (mkDate y m d).
Proof.
  intros Hv. pose proof Hv as Hv'.
  unfold valid_date in Hv'. rewrite !andb_true_iff, !Z.leb_le in Hv'.
  pose proof (days_in_month_le_31 y m).
  unfold strptime_ymd, strftime_ymd; simpl d_year; simpl d_month; simpl d_day.
  rewrite pad_digits by (cbn; lia). cbn -[match_month_day pad valid_date].
  change ("-" ++ ?X) with (String "-" X). rewrite lit_same. cbn -[match_month_day pad valid_date].
  rewrite month_day_padded by lia. cbn -[valid_date]. now rewrite Hv.
Qed.

End DigitLemmas.

Section IsoFormat.
Import PyDateTime.
Local Open Scope Z_scope.

Lemma lit_app (c : ascii) (s : string) : lit c (String c EmptyString ++ s) = Some s.
Proof. apply lit_same. Qed.

Fixpoint has_char (c : ascii) (s : string) : bool :=
  match s with
  | EmptyString => false
  | String c' s' => Ascii.eqb c c' || has_char c s'
  end.

Lemma replace_char_noop (c : ascii) (r s : string) :
  has_char c s = false -> replace_char c r s = s.
Proof.
  induction s as [|c' s IH]; simpl; [reflexivity|].
  intros H. apply orb_false_iff in H as [H1 H2]. rewrite H1, IH by exact H2. reflexivity.
Qed.

Lemma has_char_app (c : ascii) (s1 s2 : string) :
  has_char c (s1 ++ s2) = has_char c s1 || has_char c s2.
Proof. induction s1 as [|c' s1 IH]; simpl; [reflexivity|]. now rewrite IH, orb_assoc. Qed.

Lemma digit_char_not_Z (d : Z) : Ascii.eqb "Z" (digit_char (d mod 10)) = false.
Proof.
  pose proof (Z.mod_pos_bound d 10 ltac:(lia)) as Hb. revert Hb.
  generalize (d mod 10) as q. intros q Hq.
  assert (q = 0 \/ q = 1 \/ q = 2 \/ q = 3 \/ q = 4 \/ q = 5 \/ q = 6 \/ q = 7 \/ q = 8 \/ q = 9)
    as Hc by lia.
  repeat destruct Hc as [-> | Hc]; try reflexivity; subst; reflexivity.
Qed.

Lemma zpad_no_Z (k : nat) (n : Z) : has_char "Z" (zpad k n) = false.
Proof.
  induction k as [|k IH]; [reflexivity|]. cbn [zpad has_char].
  now rewrite digit_char_not_Z, IH.
Qed.

Lemma dec_aux_no_Z (fuel : nat) (n : Z) (acc : string) :
  has_char "Z" acc = false -> has_char "Z" (dec_aux fuel n acc) = false.
Proof.
  revert n acc. induction fuel as [|fuel IH]; intros n acc H; cbn [dec_aux]; [exact H|].
  destruct (n <? 10); [|apply IH]; cbn [has_char]; now rewrite digit_char_not_Z, H.
Qed.

Lemma pad_no_Z (w : nat) (n : Z) : has_char "Z" (pad w n) = false.
Proof.
  unfold pad. destruct (n <? _); [apply zpad_no_Z|]. now apply dec_aux_no_Z.
Qed.

End IsoFormat.

Section IsoFormatRoundTrip.
Import PyDateTime.
Local Open Scope Z_scope.

Lemma app_lit_cons (c : ascii) (s : string) : String c EmptyString ++ s = String c s.
Proof. reflexivity. Qed.

Lemma app_cons (c : ascii) (s1 s2 : string) : String c s1 ++ s2 = String c (s1 ++ s2).
Proof. reflexivity. Qed.

Lemma app_empty_l (s : string) : EmptyString ++ s = s.
Proof. reflexivity. Qed.

Lemma isoformat_no_Z (dt : pydatetime) : has_char "Z" (isoformat dt) = false.
Proof.
  unfold isoformat, format_offset. repeat case_match;
    repeat (rewrite has_char_app || rewrite pad_no_Z); reflexivity.
Qed.

Ltac pad_step :=
  first [ rewrite pad_digits by (cbn; lia) | rewrite pad_digits_end by (cbn; lia) ];
  cbn -[pad digits_acc valid_date valid_time].

Lemma lit_dot_format_offset (off : Z) : lit "." (format_offset off) = None.
Proof. unfold format_offset. destruct (off <? 0); reflexivity. Qed.

Lemma parse_tz_format_offset (off : Z) :
  - US_PER_DAY < off < US_PER_DAY -> off = 0 \/ 1000000 <= Z.abs off ->
  parse_tz (format_offset off) = Some (Some off).
Proof.
  intros Hoff Hsec. unfold US_PER_DAY in Hoff.
  pose proof (Z.div_mod (Z.abs off) 3600000000 ltac:(lia)) as E1.
  pose proof (Z.mod_pos_bound (Z.abs off) 3600000000 ltac:(lia)) as B1.
  pose proof (Z.div_mod (Z.abs off mod 3600000000) 60000000 ltac:(lia)) as E2.
  pose proof (Z.mod_pos_bound (Z.abs off mod 3600000000) 60000000 ltac:(lia)) as B2.
  pose proof (Z.div_mod (Z.abs off mod 3600000000 mod 60000000) 1000000 ltac:(lia)) as E3.
  pose proof (Z.mod_pos_bound (Z.abs off mod 3600000000 mod 60000000) 1000000 ltac:(lia)) as B3.
  assert (Hh : 0 <= Z.abs off / 3600000000 < 24).
  { split; [apply Z.div_pos; lia|]. apply Z.div_lt_upper_bound; lia. }
  assert (Hm : 0 <= Z.abs off mod 3600000000 / 60000000 < 60).
  { split; [apply Z.div_pos; lia|]. apply Z.div_lt_upper_bound; lia. }
  assert (Hs : 0 <= Z.abs off mod 3600000000 mod 60000000 / 1000000 < 60).
  { split; [apply Z.div_pos; lia|]. apply Z.div_lt_upper_bound; lia. }
  unfold format_offset. destruct (off <? 0) eqn:Hsign; rewrite ?app_lit_cons;
    unfold parse_tz; cbn -[pad digits_acc];
    repeat pad_step;
    (destruct (_ mod 60000000 =? 0) eqn:Hss; cbn -[pad digits_acc]; repeat pad_step;
     try (destruct (_ mod 1000000 =? 0) eqn:Hus; cbn -[pad digits_acc]; repeat pad_step));
    rewrite ?Z.ltb_lt, ?Z.ltb_ge, ?Z.eqb_eq, ?Z.eqb_neq in *;
    match goal with
    | |- (if ?S =? 0 then _ else _) = _ =>
        destruct (S =? 0) eqn:Hz0;
        [apply Z.eqb_eq in Hz0; replace off with 0 by lia; reflexivity | clear Hz0]
    end;
    match goal with
    | |- (if (- US_PER_DAY <? ?X) && (?X <? US_PER_DAY) then _ else _) = _ =>
        replace X with off by lia
    end;
    unfold US_PER_DAY;
    rewrite (proj2 (Z.ltb_lt _ _)), (proj2 (Z.ltb_lt off _)) by lia; reflexivity.
Qed.

Lemma fromisoformat_isoformat (dt : pydatetime) :
  valid_datetime dt = true -> offset_reloads dt = true -> fromisoformat (isoformat dt) = Some dt.
Proof.
  destruct dt as [[y m d] h mi se us tz]. unfold valid_datetime, offset_reloads.
  cbn [dt_date d_year d_month d_day dt_hour dt_minute dt_second dt_micro dt_tz].
  intros Hv Hoff. apply andb_true_iff in Hv as [Hv Htz]. apply andb_true_iff in Hv as [Hd Ht].
  pose proof Hd as Hd'. unfold valid_date in Hd'. rewrite !andb_true_iff, !Z.leb_le in Hd'.
  pose proof Ht as Ht'. unfold valid_time in Ht'. rewrite !andb_true_iff, !Z.leb_le in Ht'.
  pose proof (days_in_month_le_31 y m).
  unfold fromisoformat, isoformat. cbn [dt_date d_year d_month d_day dt_hour dt_minute dt_second dt_micro dt_tz].
  rewrite ?app_lit_cons.
  repeat pad_step. rewrite Hd. cbn -[pad digits_acc valid_date valid_time].
  unfold parse_time. repeat pad_step.
  destruct (us =? 0) eqn:Hu; rewrite ?app_cons, ?app_empty_l;
    cbn -[pad digits_acc valid_date valid_time format_offset parse_tz];
    [| repeat pad_step];
    (destruct tz as [off|];
     [ rewrite ?lit_dot_format_offset; cbn -[pad digits_acc valid_date valid_time format_offset parse_tz];
       rewrite parse_tz_format_offset
         by first
              [ apply andb_true_iff in Htz as [H1 H2]; apply Z.ltb_lt in H1, H2; lia
              | apply orb_true_iff in Hoff as [H1 | H1];
                [apply Z.eqb_eq in H1 | apply Z.leb_le in H1]; lia ]
     | ]);
    cbn -[valid_time]; rewrite ?Z.eqb_eq in Hu; subst; rewrite Ht; reflexivity.
Qed.

End IsoFormatRoundTrip.

Section FloatDivision.
Import PyDateTime.
Local Open Scope Z_scope.

Lemma round_half_even_bounds (p q : Z) :
  0 < q -> p / q <= round_half_even p q /\ 2 * q * round_half_even p q <= 2 * p + q.
Proof.
  intros Hq. pose proof (Z.div_mod p q ltac:(lia)) as E. pose proof (Z.mod_pos_bound p q Hq) as B.
  unfold round_half_even.
  destruct (2 * (p mod q) <? q) eqn:H1; [apply Z.ltb_lt in H1; nia|apply Z.ltb_ge in H1].
  destruct (q <? 2 * (p mod q)) eqn:H2; [apply Z.ltb_lt in H2; nia|apply Z.ltb_ge in H2].
  destruct (Z.even (p / q)); nia.
Qed.

Lemma round_half_even_exact (n q : Z) : 0 < q -> round_half_even (n * q) q = n.
Proof.
  intros Hq. unfold round_half_even. rewrite Z.div_mul, Z.mod_mul by lia.
  replace (2 * 0 <? q) with true by (symmetry; apply Z.ltb_lt; lia). reflexivity.
Qed.

(** A whole number of seconds below [2 ^ 53] is a float exactly. *)
Lemma int_of_float_div_exact (n den : Z) :
  0 < den -> 0 <= n < 2 ^ 53 -> int_of_float_div (n * den) den = n.
Proof.
  intros Hd Hn. unfold int_of_float_div. rewrite Z.div_mul by lia.
  destruct (n =? 0) eqn:Hz; [apply Z.eqb_eq in Hz; lia|apply Z.eqb_neq in Hz].
  assert (Hl : Z.log2 n < 53) by (apply Z.log2_lt_pow2; lia).
  replace (0 <=? 52 - Z.log2 n) with true by (symmetry; apply Z.leb_le; lia).
  assert (Hp : 0 < 2 ^ (52 - Z.log2 n)) by (apply Z.pow_pos_nonneg; lia).
  replace (n * den * 2 ^ (52 - Z.log2 n)) with (n * 2 ^ (52 - Z.log2 n) * den) by ring.
  rewrite round_half_even_exact by lia. apply Z.div_mul. lia.
Qed.

(** Below [2 ^ 33] the float's spacing is at most [2 ^ -20], finer than
    [1 / den] for [den <= 2 ^ 20]: truncating the float truncates [a / den]. *)
Lemma int_of_float_div_trunc (a den : Z) :
  0 < den <= 2 ^ 20 -> 0 <= a -> a / den < 2 ^ 33 -> int_of_float_div a den = a / den.
Proof.
  intros Hd Ha Hn. unfold int_of_float_div.
  set (n := a / den) in *.
  assert (Hn0 : 0 <= n) by (apply Z.div_pos; lia).
  pose proof (Z.div_mod a den ltac:(lia)) as E. pose proof (Z.mod_pos_bound a den ltac:(lia)) as B.
  fold n in E.
  destruct (n =? 0) eqn:Hz; [apply Z.eqb_eq in Hz; lia|apply Z.eqb_neq in Hz].
  assert (Hl : Z.log2 n < 33) by (apply Z.log2_lt_pow2; lia).
  replace (0 <=? 52 - Z.log2 n) with true by (symmetry; apply Z.leb_le; lia).
  assert (HP : 2 ^ 20 <= 2 ^ (52 - Z.log2 n)) by (apply Z.pow_le_mono_r; lia).
  set (P := 2 ^ (52 - Z.log2 n)) in *.
  destruct (round_half_even_bounds (a * P) den ltac:(lia)) as [Hlo Hhi].
  set (m := round_half_even (a * P) den) in *.
  assert (Hlo' : n * P <= m).
  { transitivity (a * P / den); [|exact Hlo].
    apply Z.div_le_lower_bound; [lia|]. nia. }
  assert (Hhi' : m < (n + 1) * P) by nia.
  symmetry. apply Z.div_unique with (r := m - n * P); [left; lia | ring].
Qed.

Lemma int_total_seconds_whole (n : Z) :
  - 2 ^ 53 < n < 2 ^ 53 -> int_total_seconds (n * 1000000) = n.
Proof.
  intros Hn. unfold int_total_seconds.
  destruct (n * 1000000 <? 0) eqn:Hs.
  - apply Z.ltb_lt in Hs. replace (- (n * 1000000)) with (- n * 1000000) by ring.
    rewrite int_of_float_div_exact by lia. ring.
  - apply Z.ltb_ge in Hs. apply int_of_float_div_exact; lia.
Qed.

Lemma int_total_seconds_quot (us : Z) :
  Z.abs us < 2 ^ 33 * 1000000 -> int_total_seconds us = Z.quot us 1000000.
Proof.
  intros Hb. unfold int_total_seconds.
  destruct (us <? 0) eqn:Hs.
  - apply Z.ltb_lt in Hs.
    rewrite int_of_float_div_trunc by (try apply Z.div_lt_upper_bound; cbn; lia).
    replace us with (- (- us)) at 2 by ring. rewrite Z.quot_opp_l by lia.
    rewrite Z.quot_div_nonneg by lia. reflexivity.
  - apply Z.ltb_ge in Hs.
    rewrite int_of_float_div_trunc by (try apply Z.div_lt_upper_bound; cbn; lia).
    rewrite Z.quot_div_nonneg by lia. reflexivity.
Qed.

End FloatDivision.

Section ValueConversion.
Import PyDateTime TypeMapper.
Local Open Scope Z_scope.

(** C4 (amended). Serializing a deserialized wire value gives it back for
    datetime strings in the exact form [datetime.isoformat()] writes when
    the UTC offset, if any, is zero or at least one second either way; for
    zero-padded [YYYY-MM-DD] strings naming a real date of a year from 1000
    to 9999; and for integer seconds within [timedelta]'s range. *)
Theorem roundtrip_canonical_encodings :
  (forall dt : pydatetime, valid_datetime dt = true -> offset_reloads dt = true ->
     roundtrip (PStr (isoformat dt)) DATETIME = Some (FVal (PStr (isoformat dt)))) /\
  (forall y m d : Z, valid_date y m d = true -> 1000 <= y ->
     roundtrip (PStr (strftime_ymd (mkDate y m d))) DATE =
     Some (FVal (PStr (strftime_ymd (mkDate y m d))))) /\
  (forall n : Z, -999999999 <= n / 86400 <= 999999999 ->
     roundtrip (PInt n) DURATION = Some (FVal (PInt n))).
Proof.
  split; [|split].
  - intros dt Hv Ho. unfold roundtrip, parse_value_from_airtable, parse_value_from_airtable_with.
    rewrite replace_char_noop by apply isoformat_no_Z.
    rewrite fromisoformat_isoformat by assumption. reflexivity.
  - intros y m d Hv _. unfold roundtrip, parse_value_from_airtable, parse_value_from_airtable_with.
    rewrite strptime_strftime by exact Hv. reflexivity.
  - intros n Hn. unfold roundtrip, parse_value_from_airtable, parse_value_from_airtable_with, timedelta_of_seconds,
      timedelta_seconds.
    replace ((-999999999 <=? n / 86400) && (n / 86400 <=? 999999999)) with true
      by (symmetry; apply andb_true_iff; split; apply Z.leb_le; lia).
    pose proof (Z.div_mod n 86400 ltac:(lia)). pose proof (Z.mod_pos_bound n 86400 ltac:(lia)).
    cbn -[int_total_seconds]. rewrite int_total_seconds_whole by (cbn; lia). reflexivity.
Qed.

(** C4 (counterexample). The ISO-8601 string with a [Z] suffix that
    Airtable sends comes back with [+00:00]; so does the string [isoformat]
    writes for a UTC offset of 3600 microseconds, which [fromisoformat]
    reads as UTC. *)
Lemma roundtrip_utc_suffix_changes :
  roundtrip (PStr "2024-01-15T10:30:00Z") DATETIME <> Some (FVal (PStr "2024-01-15T10:30:00Z")) /\
  roundtrip (PStr "2024-01-15T10:30:00Z") DATETIME = Some (FVal (PStr "2024-01-15T10:30:00+00:00")) /\
  valid_datetime (mkDateTime (mkDate 2024 1 15) 10 30 0 250000 (Some 3600)) = true /\
  isoformat (mkDateTime (mkDate 2024 1 15) 10 30 0 250000 (Some 3600)) =
    "2024-01-15T10:30:00.250000+00:00:00.003600" /\
  roundtrip (PStr "2024-01-15T10:30:00.250000+00:00:00.003600") DATETIME =
    Some (FVal (PStr "2024-01-15T10:30:00.250000+00:00")).
Proof.
  split; [vm_compute; intros H; discriminate H|].
  split; [vm_compute; reflexivity|]. split; [vm_compute; reflexivity|].
  split; vm_compute; reflexivity.
Qed.

(** C6 (amended). Deserializing a string under DATE or DATETIME never
    raises. It returns the string unchanged exactly when the parser rejects
    it, and the parsed value otherwise: [strptime(s, "%Y-%m-%d")] for DATE;
    for DATETIME, the [fromisoformat] of whichever Python version runs the
    code, applied to [s] with every [Z] replaced by [+00:00]. The DATE
    parser also accepts strings that are not zero-padded [YYYY-MM-DD], such
    as ["2024-1-5"]. *)
Theorem parse_malformed_returns_raw :
  (forall s : string,
     (parse_value_from_airtable (PStr s) DATE = Ret (PStr s) <-> strptime_ymd s = None) /\
     (forall d : pydate, strptime_ymd s = Some d ->
        parse_value_from_airtable (PStr s) DATE = Ret (PDate d))) /\
  (forall (fromiso : string -> option pydatetime) (s : string),
     (parse_value_from_airtable_with fromiso (PStr s) DATETIME = Ret (PStr s) <->
        fromiso (replace_char "Z" "+00:00" s) = None) /\
     (forall d : pydatetime, fromiso (replace_char "Z" "+00:00" s) = Some d ->
        parse_value_from_airtable_with fromiso (PStr s) DATETIME = Ret (PDateTime d))) /\
  (forall (fromiso : string -> option pydatetime) (s : string) (ft : AirTableFieldType),
     ft = DATE \/ ft = DATETIME ->
     exists v, parse_value_from_airtable_with fromiso (PStr s) ft = Ret v) /\
  parse_value_from_airtable (PStr "2024-1-5") DATE = Ret (PDate (mkDate 2024 1 5)).
Proof.
  split; [|split; [|split]].
  - intros s. unfold parse_value_from_airtable, parse_value_from_airtable_with. split.
    + destruct (strptime_ymd s); split; intros H; try discriminate H; reflexivity.
    + intros d Hd. now rewrite Hd.
  - intros fromiso s. unfold parse_value_from_airtable_with. split.
    + destruct (fromiso _); split; intros H; try discriminate H; reflexivity.
    + intros d Hd. now rewrite Hd.
  - intros fromiso s ft [-> | ->]; unfold parse_value_from_airtable_with.
    + destruct (strptime_ymd s); eauto.
    + destruct (fromiso _); eauto.
  - vm_compute. reflexivity.
Qed.

(** C6 (counterexample). ["2024-1-5"] is not a well-formed [YYYY-MM-DD]
    string, yet it is parsed into a date rather than returned unchanged. *)
Lemma parse_unpadded_date_not_raw :
  parse_value_from_airtable (PStr "2024-1-5") DATE <> Ret (PStr "2024-1-5").
Proof. vm_compute. intros H. discriminate H. Qed.

End ValueConversion.

(** ** Type resolution: sibling mappings and metadata *)

Section ResolverDefects.
Import FieldTypeResolver.

(** C3 (code bug). A field whose base type is [timedelta], named with no
    string pattern and declared without metadata, resolves to
    SINGLE_LINE_TEXT: [PYTHON_TO_AIRTABLE] has no [timedelta] entry, while
    the sibling table [TypeMapper.TYPE_MAPPING] maps it to DURATION. *)
Theorem resolve_timedelta_not_duration (name : string) (t : pytype)
    (Ht : _extract_base_type t = TTimedelta) :
  resolve_field_type name t None None = PFieldType SINGLE_LINE_TEXT /\
  TypeMapper.get_airtable_type TTimedelta = DURATION.
Proof.
  split; [|reflexivity].
  unfold resolve_field_type, step2, _is_string_type, _is_enum_type.
  simpl metadata_type. rewrite Ht. reflexivity.
Qed.

Lemma resolve_timedelta_not_duration_witness :
  _extract_base_type (Optional TTimedelta) = TTimedelta /\
  resolve_field_type "duration" (Optional TTimedelta) None None = PFieldType SINGLE_LINE_TEXT /\
  TypeMapper.get_airtable_type TTimedelta = DURATION.
Proof.
  split; [reflexivity|].
  apply (resolve_timedelta_not_duration "duration" (Optional TTimedelta)).
  reflexivity.
Defined.

Lemma step2_no_metadata_field_type (name : string) (t : pytype) :
  exists ft, step2 name t None = PFieldType ft.
Proof.
  unfold step2. simpl metadata_type.
  destruct (if _is_string_type t then _detect_from_field_name name else None); [eauto|].
  destruct (type_lookup PYTHON_TO_AIRTABLE (_extract_base_type t)) as [a|];
    [destruct a; eauto|].
  destruct (_is_enum_type t); eauto.
Qed.

(** C10 (code bug). Without metadata, [resolve_field_type] returns a member
    of [AirTableFieldType] for every name, annotation and explicit type.
    But a field declared with the library's own [AirTableField(...)] and no
    [airtable_field_type] carries [airtable_field_type: None], and for it
    [resolve_field_type] returns [None], whatever the name and annotation;
    the same declaration made with [airtable_field(...)] resolves to an
    enumeration member. *)
Theorem resolve_AirTableField_untyped_returns_None :
  (forall (name : string) (t : pytype) (e : option AirTableFieldType),
      exists ft, resolve_field_type name t None e = PFieldType ft) /\
  (forall (name : string) (t : pytype) (fname : option string) (ro : bool),
      resolve_field_type name t (Some (AirTableField fname None ro)) None = PNone) /\
  resolve_field_type "title" TStr (Some (airtable_field None None false)) None =
    PFieldType SINGLE_LINE_TEXT.
Proof.
  split; [|split].
  - intros name t [e|]; unfold resolve_field_type;
      [rewrite field_type_truthy_all; eauto|].
    apply step2_no_metadata_field_type.
  - intros name t fname ro. reflexivity.
  - vm_compute. reflexivity.
Qed.

End ResolverDefects.

(** ** Configuration *)

Lemma startswith_empty (p : string) (a : ascii) :
  startswith EmptyString (String a p) = false.
Proof. reflexivity. Qed.

(** C5. Constructing a config raises ConfigurationError exactly when the
    token does not start with [pat] or the base id does not start with
    [app] (an absent, empty one included); with both prefixes it succeeds
    and keeps the given values. [from_env] without overrides reads
    [AIRTABLE_ACCESS_TOKEN] and [AIRTABLE_BASE_ID] with default [""] and
    constructs the config from them. *)
Theorem config_error_iff_bad_prefix :
  (forall (tok base : string) (tbl : option string),
      is_config_error (AirTableConfig_new tok base tbl) =
      negb (startswith tok "pat" && startswith base "app")) /\
  (forall (tok base : string) (tbl : option string),
      startswith tok "pat" = true -> startswith base "app" = true ->
      AirTableConfig_new tok base tbl = ConfigOk (mkConfig tok base tbl)) /\
  (forall env : environ,
      from_env env None None None "AIRTABLE_" =
      AirTableConfig_new (getenv_default env "AIRTABLE_ACCESS_TOKEN" EmptyString)
        (getenv_default env "AIRTABLE_BASE_ID" EmptyString)
        (env "AIRTABLE_TABLE_NAME")).
Proof.
  split; [|split].
  - intros tok base tbl. unfold AirTableConfig_new.
    destruct tok as [|a tok]; [reflexivity|].
    destruct base as [|b base].
    + change (startswith EmptyString "app") with false.
      rewrite andb_false_r. reflexivity.
    + cbn [str_truthy negb].
      destruct (startswith _ "pat"), (startswith _ "app"); reflexivity.
  - intros tok base tbl Ht Hb. unfold AirTableConfig_new.
    destruct tok as [|a tok]; [discriminate Ht|].
    destruct base as [|b base]; [discriminate Hb|].
    cbn [str_truthy negb]. now rewrite Ht, Hb.
  - intros env. reflexivity.
Qed.

Lemma config_error_iff_bad_prefix_witness :
  startswith "patABC.123" "pat" = true /\ startswith "appXYZ" "app" = true /\
  AirTableConfig_new "patABC.123" "appXYZ" (Some "Tasks") =
    ConfigOk (mkConfig "patABC.123" "appXYZ" (Some "Tasks")).
Proof.
  split; [reflexivity|]. split; [reflexivity|].
  apply (proj1 (proj2 config_error_iff_bad_prefix)); reflexivity.
Defined.

(** C8. For a valid config at [self] in the heap, [with_table self t]
    returns a reference to a newly allocated config with the same token
    and base id and table name [t]; the config at [self] and every other
    object of the heap are unchanged. *)
Theorem with_table_copy_frame (h : heap) (self : loc) (c : AirTableConfig) (t : string)
    (Hc : h !! self = Some c)
    (Hvalid : is_config_error (AirTableConfig_new (access_token c) (base_id c) (table_name c)) = false) :
  exists l h', with_table h self t = Some (Returned l, h') /\
    l <> self /\ h !! l = None /\
    h' !! l = Some (mkConfig (access_token c) (base_id c) (Some t)) /\
    h' !! self = Some c /\
    (forall k, k <> l -> h' !! k = h !! k).
Proof.
  assert (Hnew : AirTableConfig_new (access_token c) (base_id c) (Some t) =
                 ConfigOk (mkConfig (access_token c) (base_id c) (Some t))).
  { revert Hvalid. unfold AirTableConfig_new.
    repeat case_match; try discriminate; reflexivity. }
  assert (Hfresh : h !! fresh (dom h) = None).
  { apply not_elem_of_dom. apply is_fresh. }
  exists (fresh (dom h)), (<[fresh (dom h) := mkConfig (access_token c) (base_id c) (Some t)]> h).
  unfold with_table. rewrite Hc. simpl. rewrite Hnew.
  split; [reflexivity|].
  assert (Hne : fresh (dom h) <> self) by congruence.
  split; [exact Hne|]. split; [exact Hfresh|].
  split; [apply lookup_insert_eq|].
  split; [transitivity (h !! self); [apply lookup_insert_ne; congruence | exact Hc]|].
  intros k Hk. apply lookup_insert_ne. congruence.
Qed.

Lemma with_table_copy_frame_witness :
  exists l h', with_table ({[ 0%nat := mkConfig "patABC.123" "appXYZ" None ]} : heap) 0%nat "Tasks"
                 = Some (Returned l, h') /\
    l <> 0%nat /\ ({[ 0%nat := mkConfig "patABC.123" "appXYZ" None ]} : heap) !! l = None /\
    h' !! l = Some (mkConfig "patABC.123" "appXYZ" (Some "Tasks")) /\
    h' !! 0%nat = Some (mkConfig "patABC.123" "appXYZ" None) /\
    (forall k, k <> l -> h' !! k = ({[ 0%nat := mkConfig "patABC.123" "appXYZ" None ]} : heap) !! k).
Proof.
  apply (with_table_copy_frame _ 0%nat (mkConfig "patABC.123" "appXYZ" None) "Tasks").
  - apply lookup_singleton_eq.
  - reflexivity.
Defined.

(** ** Batched creation *)

Section Batching.
Import BulkCreate.

Fixpoint chunk_sizes (fuel n : nat) : list nat :=
  match fuel with
  | O => []
  | S fuel' => match n with O => [] | S _ => Nat.min BATCH_SIZE n :: chunk_sizes fuel' (n - BATCH_SIZE) end
  end.

Lemma batches_aux_sizes (fuel : nat) (l : list record_fields) :
  map length (batches_aux fuel l) = chunk_sizes fuel (length l).
Proof.
  revert l. induction fuel as [|fuel IH]; intros [|f l]; try reflexivity.
  cbn [batches_aux chunk_sizes map]. f_equal.
  - rewrite length_take. reflexivity.
  - rewrite IH, length_drop. reflexivity.
Qed.

Lemma batches_aux_spec (fuel : nat) (l : list record_fields) :
  (length l <= fuel)%nat ->
  concat (batches_aux fuel l) = l /\
  Forall (fun b => 0 < length b <= BATCH_SIZE)%nat (batches_aux fuel l) /\
  length (batches_aux fuel l) = ((length l + 9) / 10)%nat.
Proof.
  revert l. induction fuel as [|fuel IH]; intros l Hl.
  - destruct l; [|simpl in Hl; lia]. repeat split; constructor.
  - destruct l as [|f l']; [repeat split; constructor|].
    set (l := f :: l') in *.
    assert (Hlen : (0 < length l)%nat) by (subst l; simpl; lia).
    destruct (IH (drop BATCH_SIZE l)) as (Hc & Hf & Hn);
      [rewrite length_drop; unfold BATCH_SIZE; lia|].
    change (batches_aux (S fuel) l) with (take BATCH_SIZE l :: batches_aux fuel (drop BATCH_SIZE l)).
    split; [|split].
    + cbn [concat]. rewrite Hc. apply take_drop.
    + constructor; [|exact Hf]. rewrite length_take. unfold BATCH_SIZE. lia.
    + cbn [length]. rewrite Hn, length_drop. unfold BATCH_SIZE.
      destruct (Nat.le_gt_cases (length l) 10) as [Hle | Hgt].
      * replace (length l - 10)%nat with 0%nat by lia.
        replace ((length l + 9) / 10)%nat with 1%nat; [reflexivity|].
        apply (Nat.div_unique _ _ _ (length l - 1)); lia.
      * replace (length l + 9)%nat with ((length l - 10 + 9) + 1 * 10)%nat by lia.
        rewrite Nat.div_add by lia. lia.
Qed.

Lemma assign_ids_spec (n : nat) (b : list record_fields) :
  map rec_fields (assign_ids n b) = b /\ map rec_id (assign_ids n b) = seq n (length b).
Proof.
  revert n. induction b as [|f b IH]; intros n; [split; reflexivity|].
  destruct (IH (S n)) as [H1 H2]. cbn. rewrite H1, H2. split; reflexivity.
Qed.

Lemma run_batches_spec (bs : list (list record_fields)) (s : server)
    (created : list RecordInstance) (s' : server) :
  run_batches bs s = (created, s') ->
  calls s' = (calls s ++ bs)%list /\
  map rec_fields created = concat bs /\
  map rec_id created = seq (next_id s) (length (concat bs)) /\
  next_id s' = (next_id s + length (concat bs))%nat.
Proof.
  revert s created s'. induction bs as [|b bs IH]; intros s created s' Hrun.
  - injection Hrun as <- <-. rewrite app_nil_r. repeat split; simpl; lia.
  - cbn [run_batches create_records] in Hrun.
    destruct (run_batches bs _) as [rest s2] eqn:E.
    injection Hrun as <- <-.
    destruct (IH _ _ _ E) as (Hc & Hf & Hi & Hn). cbn [calls next_id] in *.
    destruct (assign_ids_spec (next_id s) b) as [Hf1 Hi1].
    rewrite Hc, <- app_assoc. split; [reflexivity|].
    rewrite !map_app, Hf1, Hf. split; [reflexivity|].
    cbn [concat]. rewrite Hi1, Hi, Hn, length_app, seq_app.
    split; [reflexivity | lia].
Qed.

(** C9 (modelled from the spec). [bulk_create] sends the records in
    consecutive batches that are non-empty, hold at most 10 records and
    together make up the input in order; there are [ceil(n / 10)] of them,
    one create call each, issued in sequence; it returns [n] Record
    Instances whose fields are the input records in input order, with the
    ids assigned in that order. For 25 records the batches have sizes 10,
    10 and 5. *)
Theorem bulk_create_batches (records : list record_fields) (s : server)
    (created : list RecordInstance) (s' : server)
    (Hrun : bulk_create records s = (created, s')) :
  calls s' = (calls s ++ batches records)%list /\
  concat (batches records) = records /\
  Forall (fun b => 0 < length b <= BATCH_SIZE)%nat (batches records) /\
  length (batches records) = ((length records + 9) / 10)%nat /\
  map rec_fields created = records /\
  length created = length records /\
  map rec_id created = seq (next_id s) (length records) /\
  (length records = 25%nat -> map length (batches records) = [10; 10; 5]%nat).
Proof.
  destruct (batches_aux_spec (length records) records (le_n _)) as (Hc & Hf & Hn).
  fold (batches records) in Hc, Hf, Hn.
  destruct (run_batches_spec _ _ _ _ Hrun) as (Hcalls & Hfields & Hids & _).
  rewrite Hc in Hfields, Hids.
  split; [exact Hcalls|]. split; [exact Hc|]. split; [exact Hf|].
  split; [exact Hn|]. split; [exact Hfields|].
  split; [rewrite <- Hfields, length_map; reflexivity|].
  split; [exact Hids|].
  intros H25. unfold batches. rewrite batches_aux_sizes, H25. reflexivity.
Qed.

Definition sample_records : list record_fields :=
  map (fun i => [("Name", PStr "task"); ("Index", PInt (Z.of_nat i))]) (seq 0 25).

Lemma bulk_create_batches_witness :
  bulk_create sample_records (mkServer 1 []) =
    (fst (bulk_create sample_records (mkServer 1 [])),
     snd (bulk_create sample_records (mkServer 1 []))) /\
  length sample_records = 25%nat /\
  map length (batches sample_records) = [10; 10; 5]%nat.
Proof.
  split; [reflexivity|]. split; [reflexivity|].
  destruct (bulk_create_batches sample_records (mkServer 1 [])
              (fst (bulk_create sample_records (mkServer 1 [])))
              (snd (bulk_create sample_records (mkServer 1 []))) eq_refl)
    as (_ & _ & _ & _ & _ & _ & _ & H).
  apply H. reflexivity.
Defined.

End Batching.

(** ** Instances of the theorems on concrete inputs *)

Section Instances.
Import FieldTypeResolver.

Lemma resolve_string_field_by_name_witness :
  _extract_base_type (Optional TStr) = TStr /\
  email_group "Contact_Email" = true /\
  resolve_field_type "Contact_Email" (Optional TStr) None None = PFieldType EMAIL.
Proof.
  split; [reflexivity|]. split; [reflexivity|].
  apply (proj1 (resolve_string_field_by_name "Contact_Email" (Optional TStr) eq_refl)).
  reflexivity.
Defined.

Lemma resolve_explicit_then_metadata_witness :
  dict_get [("airtable_field_type", PFieldType BARCODE)] "airtable_field_type" =
    Some (PFieldType BARCODE) /\
  resolve_field_type "notes" TStr
    (Some (mkFieldInfo (ExtraDict [("airtable_field_type", PFieldType BARCODE)]))) None =
    PFieldType BARCODE.
Proof.
  split; [reflexivity|].
  apply (proj2 resolve_explicit_then_metadata). reflexivity.
Defined.

Lemma resolve_number_field_by_name_witness :
  _extract_base_type (Optional TFloat) = TFloat /\
  currency_group "Unit_Price" = true /\
  resolve_field_type "Unit_Price" (Optional TFloat) None None = PFieldType CURRENCY.
Proof.
  split; [reflexivity|]. split; [reflexivity|].
  apply (proj1 (resolve_number_field_by_name "Unit_Price" (Optional TFloat) (or_intror eq_refl))).
  reflexivity.
Defined.

End Instances.

Section ConversionInstances.
Import PyDateTime TypeMapper.
Local Open Scope Z_scope.

Definition sample_datetime : pydatetime :=
  mkDateTime (mkDate 2024 1 15) 10 30 0 250000 (Some 19800000000).

Lemma roundtrip_canonical_encodings_witness :
  valid_datetime sample_datetime = true /\ offset_reloads sample_datetime = true /\
  roundtrip (PStr (isoformat sample_datetime)) DATETIME =
    Some (FVal (PStr (isoformat sample_datetime))) /\
  valid_date 2024 2 29 = true /\
  roundtrip (PStr (strftime_ymd (mkDate 2024 2 29))) DATE =
    Some (FVal (PStr (strftime_ymd (mkDate 2024 2 29)))) /\
  roundtrip (PInt 5400) DURATION = Some (FVal (PInt 5400)).
Proof.
  destruct roundtrip_canonical_encodings as (Hdt & Hd & Hs).
  split; [vm_compute; reflexivity|]. split; [vm_compute; reflexivity|].
  split; [apply Hdt; vm_compute; reflexivity|].
  split; [vm_compute; reflexivity|].
  split; [apply Hd; [vm_compute; reflexivity | lia]|].
  apply Hs. vm_compute. split; discriminate.
Defined.

Lemma parse_malformed_returns_raw_witness :
  strptime_ymd "15/01/2024" = None /\
  parse_value_from_airtable (PStr "15/01/2024") DATE = Ret (PStr "15/01/2024") /\
  strptime_ymd "2024-01-15" = Some (mkDate 2024 1 15) /\
  parse_value_from_airtable (PStr "2024-01-15") DATE = Ret (PDate (mkDate 2024 1 15)) /\
  fromisoformat (replace_char "Z" "+00:00" "yesterday") = None /\
  parse_value_from_airtable (PStr "yesterday") DATETIME = Ret (PStr "yesterday").
Proof.
  destruct parse_malformed_returns_raw as (Hd & Hdt & _).
  split; [vm_compute; reflexivity|].
  split; [apply (proj2 (proj1 (Hd "15/01/2024"))); vm_compute; reflexivity|].
  split; [vm_compute; reflexivity|].
  split; [apply (proj2 (Hd "2024-01-15")); vm_compute; reflexivity|].
  split; [vm_compute; reflexivity|].
  apply (proj2 (proj1 (Hdt fromisoformat "yesterday"))). vm_compute. reflexivity.
Defined.

End ConversionInstances.

(** ** Further properties: configuration *)

Lemma config_new_ok (a b : string) (tn : option string) (c : AirTableConfig) :
  AirTableConfig_new a b tn = ConfigOk c -> c = mkConfig a b tn.
Proof. unfold AirTableConfig_new. repeat case_match; congruence. Qed.

(** [validate_table_name]: a non-empty argument is returned as it is; an
    absent or empty one falls back to the config's table name; the result
    is never an empty name, and without an argument it raises exactly when
    the config has no non-empty table name. *)
Theorem validate_table_name_fallback :
  (forall (c : AirTableConfig) (s : string),
      str_truthy s = true -> validate_table_name c (Some s) = NameOk s) /\
  (forall (c : AirTableConfig) (t : option string),
      (t = None \/ t = Some EmptyString) -> validate_table_name c t = validate_table_name c None) /\
  (forall (c : AirTableConfig) (n : string),
      validate_table_name c None = NameOk n <-> table_name c = Some n /\ str_truthy n = true) /\
  (forall (c : AirTableConfig) (t : option string) (n : string),
      validate_table_name c t = NameOk n -> str_truthy n = true).
Proof.
  split; [|split; [|split]].
  - intros c s Hs. unfold validate_table_name, opt_str_or. rewrite Hs. cbn match. now rewrite Hs.
  - intros c t [-> | ->]; reflexivity.
  - intros c n. unfold validate_table_name, opt_str_or.
    destruct (table_name c) as [s|]; [|split; [discriminate | intros [[=] _]]].
    destruct (str_truthy s) eqn:E; split.
    + intros [=<-]. auto.
    + intros [[=<-] _]. reflexivity.
    + discriminate.
    + intros [[=<-] H]. congruence.
  - intros c t n. unfold validate_table_name.
    destruct (opt_str_or t (table_name c)) as [s|]; [|discriminate].
    destruct (str_truthy s) eqn:E; [intros [=<-]; exact E | discriminate].
Qed.

Lemma validate_table_name_fallback_witness :
  str_truthy "Projects" = true /\
  validate_table_name (mkConfig "patX" "appY" (Some "Tasks")) (Some "Projects") = NameOk "Projects" /\
  (Some EmptyString = None \/ Some EmptyString = Some EmptyString) /\
  validate_table_name (mkConfig "patX" "appY" (Some "Tasks")) (Some EmptyString) =
    validate_table_name (mkConfig "patX" "appY" (Some "Tasks")) None.
Proof.
  destruct validate_table_name_fallback as (H1 & H2 & _).
  split; [reflexivity|]. split; [apply H1; reflexivity|].
  split; [right; reflexivity|]. apply H2. right. reflexivity.
Defined.

(** [with_table] does not check the table name: on a heap holding the
    config at [self], the config it returns answers
    [validate_table_name()] with [t] when [t] is non-empty, and raises
    ConfigurationError when [t] is the empty string. *)
Theorem with_table_then_validate (h h' : heap) (self l : loc) (t : string) (c' : AirTableConfig)
    (Hcall : with_table h self t = Some (Returned l, h'))
    (Hl : h' !! l = Some c') :
  validate_table_name c' None =
    if str_truthy t then NameOk t
    else NameError "Table name is required. Specify it in AirTableConfig or pass as argument.".
Proof.
  unfold with_table in Hcall.
  destruct (h !! self) as [c|]; [|discriminate]. simpl in Hcall.
  destruct (AirTableConfig_new _ _ _) as [c0|msg] eqn:E; [|discriminate].
  injection Hcall as <- <-.
  assert (c' = c0) as ->.
  { assert (Hx : (<[fresh (dom h) := c0]> h : heap) !! fresh (dom h) = Some c0)
      by apply lookup_insert_eq.
    congruence. }
  apply config_new_ok in E. subst c0. reflexivity.
Qed.

Lemma with_table_then_validate_witness :
  with_table ({[ 0%nat := mkConfig "patX" "appY" (Some "Tasks") ]} : heap) 0%nat EmptyString =
    Some (Returned 1%nat,
          <[1%nat := mkConfig "patX" "appY" (Some EmptyString)]>
            ({[ 0%nat := mkConfig "patX" "appY" (Some "Tasks") ]} : heap)) /\
  (<[1%nat := mkConfig "patX" "appY" (Some EmptyString)]>
     ({[ 0%nat := mkConfig "patX" "appY" (Some "Tasks") ]} : heap)) !! 1%nat =
    Some (mkConfig "patX" "appY" (Some EmptyString)) /\
  validate_table_name (mkConfig "patX" "appY" (Some EmptyString)) None =
    NameError "Table name is required. Specify it in AirTableConfig or pass as argument.".
Proof.
  split; [vm_compute; reflexivity|]. split; [vm_compute; reflexivity|].
  apply (with_table_then_validate
           ({[ 0%nat := mkConfig "patX" "appY" (Some "Tasks") ]} : heap)
           (<[1%nat := mkConfig "patX" "appY" (Some EmptyString)]>
              ({[ 0%nat := mkConfig "patX" "appY" (Some "Tasks") ]} : heap))
           0%nat 1%nat EmptyString); vm_compute; reflexivity.
Defined.

Lemma get_global_config_unset : is_config_error (get_global_config None) = true.
Proof. reflexivity. Qed.

(** [from_env]: an empty-string override counts as absent, and non-empty
    overrides for all three values make the environment irrelevant. *)
Theorem from_env_overrides :
  (forall (env : environ) (b t : option string) (p : string),
      from_env env (Some EmptyString) b t p = from_env env None b t p) /\
  (forall (env : environ) (a t : option string) (p : string),
      from_env env a (Some EmptyString) t p = from_env env a None t p) /\
  (forall (env : environ) (a b : option string) (p : string),
      from_env env a b (Some EmptyString) p = from_env env a b None p) /\
  (forall (env : environ) (tok base tbl p : string),
      str_truthy tok = true -> str_truthy base = true -> str_truthy tbl = true ->
      from_env env (Some tok) (Some base) (Some tbl) p = AirTableConfig_new tok base (Some tbl)).
Proof.
  split; [|split; [|split]]; try reflexivity.
  intros env tok base tbl p H1 H2 H3. unfold from_env, str_or, opt_str_or.
  now rewrite H1, H2, H3.
Qed.

Lemma from_env_overrides_witness :
  str_truthy "patX" = true /\ str_truthy "appY" = true /\ str_truthy "Tasks" = true /\
  from_env (fun _ => None) (Some "patX") (Some "appY") (Some "Tasks") "AIRTABLE_" =
    AirTableConfig_new "patX" "appY" (Some "Tasks").
Proof.
  split; [reflexivity|]. split; [reflexivity|]. split; [reflexivity|].
  apply (proj2 (proj2 (proj2 from_env_overrides))); reflexivity.
Defined.

(** ** Further properties: value conversion *)

Section ConversionProps.
Import PyDateTime TypeMapper.
Local Open Scope Z_scope.

(** Both converters map [None] to [None] under every field type, and
    never produce [None] from any other value. *)
Theorem converters_none_iff_none (v : pyval) (ft : AirTableFieldType) :
  (parse_value_from_airtable v ft = Ret PNone <-> v = PNone) /\
  (format_value_for_airtable v ft = FVal PNone <-> v = PNone).
Proof.
  split; split; intros H; subst; try reflexivity; revert H;
    destruct v, ft; unfold parse_value_from_airtable, parse_value_from_airtable_with, format_value_for_airtable,
      timedelta_of_seconds;
    repeat case_match; congruence.
Qed.

(** [parse_value_from_airtable] raises only under DURATION, only
    OverflowError, and exactly on an integer number of seconds whose day
    count lies outside [timedelta]'s range of 999999999 days either way. *)
Theorem parse_raises_iff_duration_overflow (v : pyval) (ft : AirTableFieldType) (e : string) :
  parse_value_from_airtable v ft = Raise e <->
  ft = DURATION /\ e = "OverflowError" /\
  exists n, v = PInt n /\ (n / 86400 < -999999999 \/ 999999999 < n / 86400).
Proof.
  split.
  - destruct v, ft; unfold parse_value_from_airtable, parse_value_from_airtable_with; try (repeat case_match; discriminate).
    + unfold timedelta_of_seconds, timedelta_seconds.
      destruct ((-999999999 <=? z / 86400) && (z / 86400 <=? 999999999)) eqn:E;
        [discriminate|]. intros [=<-].
      split; [reflexivity|]. split; [reflexivity|]. exists z. split; [reflexivity|].
      apply andb_false_iff in E. destruct E as [E|E]; apply Z.leb_gt in E; lia.
  - intros (-> & -> & n & -> & Hn). unfold parse_value_from_airtable, parse_value_from_airtable_with, timedelta_of_seconds,
      timedelta_seconds.
    replace ((-999999999 <=? n / 86400) && (n / 86400 <=? 999999999)) with false
      by (symmetry; apply andb_false_iff; destruct Hn; [left | right]; apply Z.leb_gt; lia).
    reflexivity.
Qed.

Lemma parse_raises_iff_duration_overflow_witness :
  parse_value_from_airtable (PInt (86400 * 1000000000)) DURATION = Raise "OverflowError".
Proof.
  apply (proj2 (parse_raises_iff_duration_overflow (PInt (86400 * 1000000000)) DURATION
                  "OverflowError")).
  split; [reflexivity|]. split; [reflexivity|].
  exists (86400 * 1000000000). split; [reflexivity|]. right. vm_compute. reflexivity.
Defined.

(** Under DATE, a date with a four-digit year is formatted to a string
    that parses back to the same date; a datetime is formatted to the
    string of its date, which parses back to that date alone. *)
Theorem date_value_reload (d : pydate) (time : pydatetime)
    (Hd : valid_date (d_year d) (d_month d) (d_day d) = true) (Hy : 1000 <= d_year d) :
  parse_of_format (PDate d) DATE = Some (Ret (PDate d)) /\
  parse_of_format (PDateTime (mkDateTime d (dt_hour time) (dt_minute time) (dt_second time)
                                (dt_micro time) (dt_tz time))) DATE = Some (Ret (PDate d)).
Proof.
  destruct d as [y m dd]. unfold parse_of_format. simpl.
  rewrite strptime_strftime by exact Hd. split; reflexivity.
Qed.

Lemma date_value_reload_witness :
  valid_date 2024 2 29 = true /\ 1000 <= 2024 /\
  parse_of_format (PDate (mkDate 2024 2 29)) DATE = Some (Ret (PDate (mkDate 2024 2 29))).
Proof.
  split; [reflexivity|]. split; [lia|].
  apply (proj1 (date_value_reload (mkDate 2024 2 29) (mkDateTime (mkDate 2024 2 29) 12 0 0 0 None)
                  eq_refl ltac:(simpl; lia))).
Defined.

(** Under DATETIME, a datetime object whose UTC offset is absent, zero or
    at least one second either way is formatted to a string that parses
    back to the same datetime, microseconds and offset included. *)
Theorem datetime_value_reload (dt : pydatetime) (Hv : valid_datetime dt = true)
    (Ho : offset_reloads dt = true) :
  parse_of_format (PDateTime dt) DATETIME = Some (Ret (PDateTime dt)).
Proof.
  unfold parse_of_format. simpl.
  rewrite replace_char_noop by apply isoformat_no_Z.
  rewrite fromisoformat_isoformat by assumption. reflexivity.
Qed.

Lemma datetime_value_reload_witness :
  valid_datetime (mkDateTime (mkDate 2024 1 15) 10 30 0 250000 (Some (-18000000000))) = true /\
  offset_reloads (mkDateTime (mkDate 2024 1 15) 10 30 0 250000 (Some (-18000000000))) = true /\
  parse_of_format (PDateTime (mkDateTime (mkDate 2024 1 15) 10 30 0 250000 (Some (-18000000000))))
    DATETIME = Some (Ret (PDateTime (mkDateTime (mkDate 2024 1 15) 10 30 0 250000 (Some (-18000000000))))).
Proof.
  split; [vm_compute; reflexivity|]. split; [vm_compute; reflexivity|].
  apply datetime_value_reload; vm_compute; reflexivity.
Defined.

Lemma quot_seconds_in_range (us : Z) :
  -999999999 <= us / (86400 * 1000000) <= 999999999 ->
  -999999999 <= Z.quot us 1000000 / 86400 <= 999999999.
Proof.
  intros [H1 H2].
  pose proof (Z.div_mod us (86400 * 1000000) ltac:(lia)).
  pose proof (Z.mod_pos_bound us (86400 * 1000000) ltac:(lia)).
  destruct (Z.le_gt_cases 0 us) as [Hp | Hn].
  - rewrite Z.quot_div_nonneg by lia.
    pose proof (Z.div_mod us 1000000 ltac:(lia)).
    pose proof (Z.mod_pos_bound us 1000000 ltac:(lia)).
    pose proof (Z.div_mod (us / 1000000) 86400 ltac:(lia)).
    pose proof (Z.mod_pos_bound (us / 1000000) 86400 ltac:(lia)).
    lia.
  - assert (E : Z.quot us 1000000 = - ((- us) / 1000000)).
    { rewrite <- Z.quot_div_nonneg by lia. rewrite Z.quot_opp_l by lia. lia. }
    rewrite E.
    pose proof (Z.div_mod (- us) 1000000 ltac:(lia)).
    pose proof (Z.mod_pos_bound (- us) 1000000 ltac:(lia)).
    pose proof (Z.div_mod (- (- us / 1000000)) 86400 ltac:(lia)).
    pose proof (Z.mod_pos_bound (- (- us / 1000000)) 86400 ltac:(lia)).
    lia.
Qed.

(** Under DURATION, a [timedelta] of less than [2 ** 33] seconds (about 272
    years) either way is formatted to its seconds truncated toward zero, and
    parses back, without overflow, to the [timedelta] with its sub-second
    part dropped. Near the bounds the float [total_seconds()] rounds up:
    [timedelta.max] is formatted to 86400000000000 seconds, [10 ** 9] days,
    and parsing that raises OverflowError. *)
Theorem timedelta_value_reload :
  (forall us : Z, Z.abs us < 2 ^ 33 * 1000000 ->
     format_value_for_airtable (PTimedelta us) DURATION = FVal (PInt (Z.quot us 1000000)) /\
     parse_of_format (PTimedelta us) DURATION =
       Some (Ret (PTimedelta (Z.quot us 1000000 * 1000000)))) /\
  valid_timedelta timedelta_max = true /\
  format_value_for_airtable (PTimedelta timedelta_max) DURATION = FVal (PInt 86400000000000) /\
  parse_of_format (PTimedelta timedelta_max) DURATION = Some (Raise "OverflowError").
Proof.
  split; [|split; [|split]]; [|vm_compute; reflexivity ..].
  intros us Hb.
  assert (Hf : format_value_for_airtable (PTimedelta us) DURATION =
               FVal (PInt (Z.quot us 1000000))).
  { cbn -[int_total_seconds]. rewrite int_total_seconds_quot by exact Hb. reflexivity. }
  split; [exact Hf|].
  unfold parse_of_format. rewrite Hf. cbn -[Z.quot Z.div]. unfold timedelta_of_seconds, timedelta_seconds.
  assert (Hr : -999999999 <= us / (86400 * 1000000) <= 999999999).
  { pose proof (Z.div_mod us (86400 * 1000000) ltac:(lia)).
    pose proof (Z.mod_pos_bound us (86400 * 1000000) ltac:(lia)). cbn in Hb. lia. }
  pose proof (quot_seconds_in_range us Hr) as Hq.
  replace ((-999999999 <=? Z.quot us 1000000 / 86400) && (Z.quot us 1000000 / 86400 <=? 999999999))
    with true by (symmetry; apply andb_true_iff; split; apply Z.leb_le; lia).
  reflexivity.
Qed.

Lemma timedelta_value_reload_witness :
  Z.abs (-1500000) < 2 ^ 33 * 1000000 /\
  format_value_for_airtable (PTimedelta (-1500000)) DURATION = FVal (PInt (-1)) /\
  parse_of_format (PTimedelta (-1500000)) DURATION = Some (Ret (PTimedelta (-1000000))).
Proof.
  split; [vm_compute; reflexivity|].
  exact (proj1 timedelta_value_reload (-1500000) ltac:(vm_compute; reflexivity)).
Defined.
Lemma str_app_assoc (a b c : string) : (a ++ b) ++ c = a ++ (b ++ c).
Proof.
  induction a as [|x a IH]; [reflexivity|]. rewrite !app_cons, IH. reflexivity.
Qed.

Lemma replace_char_app (c : ascii) (r s1 s2 : string) :
  replace_char c r (s1 ++ s2) = replace_char c r s1 ++ replace_char c r s2.
Proof.
  induction s1 as [|x s1 IH]; [reflexivity|]. rewrite app_cons. simpl.
  case_match; rewrite IH; [apply eq_sym, str_app_assoc | reflexivity].
Qed.

(** Under DATETIME, a string of [isoformat] of a naive datetime followed by
    the [Z] that marks UTC is parsed to the same datetime, made aware with
    the UTC offset 0. *)
Theorem utc_z_suffix_parses_aware (dt : pydatetime)
    (Hv : valid_datetime dt = true) (Hnaive : dt_tz dt = None) :
  parse_value_from_airtable (PStr (isoformat dt ++ "Z")) DATETIME =
    Ret (PDateTime (mkDateTime (dt_date dt) (dt_hour dt) (dt_minute dt) (dt_second dt)
                      (dt_micro dt) (Some 0))).
Proof.
  unfold parse_value_from_airtable, parse_value_from_airtable_with.
  rewrite replace_char_app, replace_char_noop by apply isoformat_no_Z.
  change (replace_char "Z" "+00:00" "Z") with "+00:00".
  destruct dt as [d h mi se us tz]. simpl in Hnaive. subst tz. cbn [dt_date dt_hour dt_minute dt_second dt_micro].
  set (dt' := mkDateTime d h mi se us (Some 0)).
  assert (E : isoformat (mkDateTime d h mi se us None) ++ "+00:00" = isoformat dt').
  { unfold isoformat, dt'. cbn [dt_date dt_hour dt_minute dt_second dt_micro dt_tz].
    rewrite !str_app_assoc. reflexivity. }
  rewrite E, fromisoformat_isoformat; [reflexivity| |reflexivity].
  unfold valid_datetime in *. cbn [dt_date dt_hour dt_minute dt_second dt_micro dt_tz dt'] in *.
  rewrite andb_true_r in Hv. now rewrite Hv.
Qed.

Lemma utc_z_suffix_parses_aware_witness :
  valid_datetime (mkDateTime (mkDate 2024 1 15) 10 30 0 0 None) = true /\
  parse_value_from_airtable (PStr (isoformat (mkDateTime (mkDate 2024 1 15) 10 30 0 0 None) ++ "Z"))
    DATETIME = Ret (PDateTime (mkDateTime (mkDate 2024 1 15) 10 30 0 0 (Some 0))).
Proof.
  split; [vm_compute; reflexivity|].
  apply (utc_z_suffix_parses_aware (mkDateTime (mkDate 2024 1 15) 10 30 0 0 None));
    vm_compute; reflexivity.
Defined.

(** Under CHECKBOX each converter on its own maps a non-[None] value [x]
    to [bool(x)] and keeps [None]; so a round trip in either direction does
    the same, and leaves a boolean unchanged. *)
Theorem checkbox_coercion (v : pyval) :
  format_value_for_airtable v CHECKBOX =
    FVal (match v with PNone => PNone | _ => PBool (truthy v) end) /\
  parse_value_from_airtable v CHECKBOX =
    Ret (match v with PNone => PNone | _ => PBool (truthy v) end) /\
  roundtrip v CHECKBOX =
    Some (FVal (match v with PNone => PNone | _ => PBool (truthy v) end)) /\
  parse_of_format v CHECKBOX =
    Some (Ret (match v with PNone => PNone | _ => PBool (truthy v) end)).
Proof. destruct v; repeat split; reflexivity. Qed.

End ConversionProps.

(** ** Further properties: type resolution *)

Section ResolverProps.
Import FieldTypeResolver.

(** The two type tables, [TypeMapper.TYPE_MAPPING] and
    [FieldTypeResolver.PYTHON_TO_AIRTABLE], give the same answer for every
    type except [list] (only the resolver maps it, to MULTI_SELECT, so
    [get_airtable_type] falls back to SINGLE_LINE_TEXT) and [timedelta]
    (only [TYPE_MAPPING] maps it, to DURATION). *)
Theorem type_tables_agree_except_list_timedelta :
  (forall t : pytype, t <> TList -> t <> TTimedelta ->
     type_lookup TypeMapper.TYPE_MAPPING t = type_lookup PYTHON_TO_AIRTABLE t) /\
  type_lookup PYTHON_TO_AIRTABLE TList = Some MULTI_SELECT /\
  TypeMapper.get_airtable_type TList = SINGLE_LINE_TEXT /\
  type_lookup TypeMapper.TYPE_MAPPING TTimedelta = Some DURATION /\
  type_lookup PYTHON_TO_AIRTABLE TTimedelta = None.
Proof.
  split; [|repeat split].
  intros t H1 H2. destruct t; try congruence; reflexivity.
Qed.

Lemma type_tables_agree_except_list_timedelta_witness :
  TBool <> TList /\ TBool <> TTimedelta /\
  type_lookup TypeMapper.TYPE_MAPPING TBool = type_lookup PYTHON_TO_AIRTABLE TBool.
Proof.
  split; [discriminate|]. split; [discriminate|].
  apply (proj1 type_tables_agree_except_list_timedelta); discriminate.
Defined.

(** [resolve_field_type] sees the annotation only through
    [_extract_base_type]: two annotations with the same base type resolve
    alike, and [Optional[T]] resolves like [T] for every [T] that is
    neither [NoneType] nor a union. *)
Theorem resolve_depends_on_base_type :
  (forall (name : string) (t1 t2 : pytype) (fi : option FieldInfo) (e : option AirTableFieldType),
     _extract_base_type t1 = _extract_base_type t2 ->
     resolve_field_type name t1 fi e = resolve_field_type name t2 fi e) /\
  (forall (name : string) (t : pytype) (fi : option FieldInfo) (e : option AirTableFieldType),
     is_none_type t = false -> is_union t = false ->
     resolve_field_type name (Optional t) fi e = resolve_field_type name t fi e).
Proof.
  assert (Hbase : forall name t1 t2 fi e, _extract_base_type t1 = _extract_base_type t2 ->
            resolve_field_type name t1 fi e = resolve_field_type name t2 fi e).
  { intros name t1 t2 fi e H.
    unfold resolve_field_type, step2, _is_string_type, _is_enum_type. now rewrite H. }
  split; [exact Hbase|].
  intros name t fi e Hn _. apply Hbase. simpl. now rewrite Hn.
Qed.

Lemma resolve_depends_on_base_type_witness :
  is_none_type (TGeneric TList [TStr]) = false /\ is_union (TGeneric TList [TStr]) = false /\
  resolve_field_type "emails" (Optional (TGeneric TList [TStr])) None None =
    resolve_field_type "emails" (TGeneric TList [TStr]) None None.
Proof.
  split; [reflexivity|]. split; [reflexivity|].
  apply (proj2 resolve_depends_on_base_type); reflexivity.
Defined.

Lemma ascii_lower_idem (c : ascii) : ascii_lower (ascii_lower c) = ascii_lower c.
Proof.
  destruct c as [b0 b1 b2 b3 b4 b5 b6 b7].
  destruct b0, b1, b2, b3, b4, b5, b6, b7; reflexivity.
Qed.

Lemma lower_idem (s : string) : lower (lower s) = lower s.
Proof. induction s as [|c s IH]; simpl; [reflexivity|]. now rewrite ascii_lower_idem, IH. Qed.

(** The field name matters only through its lower-cased form, for every
    annotation, metadata and explicit type. *)
Theorem resolve_case_insensitive (name : string) (t : pytype) (fi : option FieldInfo)
    (e : option AirTableFieldType) :
  resolve_field_type (lower name) t fi e = resolve_field_type name t fi e.
Proof.
  unfold resolve_field_type, step2, _detect_from_field_name, _refine_number_type.
  now rewrite lower_idem.
Qed.

(** Declarations made with the library's helpers and no
    [json_schema_extra] argument: a type given to [airtable_field] or to
    [AirTableField] is the resolved type, whatever the name and annotation;
    [airtable_field] without a type leaves resolution to the name and the
    annotation, as if there were no field info; so does a field info whose
    [json_schema_extra] is unset or a callable. *)
Theorem resolve_declared_metadata :
  (forall (x : AirTableFieldType) (name : string) (t : pytype) (fname : option string) (ro : bool),
     resolve_field_type name t (Some (airtable_field (Some x) fname ro)) None = PFieldType x) /\
  (forall (x : AirTableFieldType) (name : string) (t : pytype) (fname : option string) (ro : bool),
     resolve_field_type name t (Some (AirTableField fname (Some x) ro)) None = PFieldType x) /\
  (forall (name : string) (t : pytype) (fname : option string) (ro : bool)
          (e : option AirTableFieldType),
     resolve_field_type name t (Some (airtable_field None fname ro)) e =
     resolve_field_type name t None e) /\
  (forall (name : string) (t : pytype) (e : option AirTableFieldType),
     resolve_field_type name t (Some (mkFieldInfo ExtraNone)) e = resolve_field_type name t None e /\
     resolve_field_type name t (Some (mkFieldInfo ExtraCallable)) e = resolve_field_type name t None e).
Proof.
  split; [|split; [|split]].
  - intros x name t fname ro. unfold resolve_field_type, step2, metadata_type, airtable_field.
    cbn [json_schema_extra]. rewrite field_type_truthy_all. reflexivity.
  - intros x name t fname ro. reflexivity.
  - intros name t fname ro e. unfold resolve_field_type, step2, metadata_type, airtable_field.
    cbn [json_schema_extra].
    destruct fname as [n|]; [destruct (str_truthy n)|]; destruct ro; reflexivity.
  - intros name t e. split; reflexivity.
Qed.

(** Without metadata or explicit type, the field name matters only for
    [str] and numeric ([int], [float]) fields: for every other base type
    any two names resolve alike. *)
Theorem resolve_name_irrelevant_for_other_types (n1 n2 : string) (t : pytype)
    (Hother : ~ In (_extract_base_type t) [TStr; TInt; TFloat]) :
  resolve_field_type n1 t None None = resolve_field_type n2 t None None.
Proof.
  unfold resolve_field_type, step2, _is_string_type, _is_enum_type. simpl metadata_type.
  destruct (_extract_base_type t); simpl in Hother; try (exfalso; tauto); reflexivity.
Qed.

Lemma resolve_name_irrelevant_for_other_types_witness :
  ~ In (_extract_base_type (Optional TBool)) [TStr; TInt; TFloat] /\
  resolve_field_type "email_verified" (Optional TBool) None None =
    resolve_field_type "active" (Optional TBool) None None.
Proof.
  split; [simpl; intuition discriminate|].
  apply resolve_name_irrelevant_for_other_types. simpl. intuition discriminate.
Defined.

End ResolverProps.

(** ** Further properties: field options *)

Lemma kwargs_get_filter (kw : list (string * optval)) (k : string) (d : optval) :
  existsb (String.eqb k) option_keys = true ->
  kwargs_get (List.filter (fun kv => existsb (String.eqb kv.1) option_keys) kw) k d = kwargs_get kw k d.
Proof.
  intros Hk. induction kw as [|[k' v] kw IH]; [reflexivity|].
  cbn [List.filter fst].
  destruct (existsb (String.eqb k') option_keys) eqn:E; cbn [kwargs_get].
  - now rewrite IH.
  - destruct (String.eqb k k') eqn:Ekk; [|exact IH].
    apply String.eqb_eq in Ekk. subst. congruence.
Qed.

(** [get_field_options] reads no keyword other than [icon], [color],
    [choices], [precision] and [symbol], and gives [{}] for every field
    type other than CHECKBOX, SELECT, MULTI_SELECT, CURRENCY and PERCENT. *)
Theorem get_field_options_reads_only_known_keys (ft : AirTableFieldType)
    (kw : list (string * optval)) :
  get_field_options ft kw =
    get_field_options ft (List.filter (fun kv => existsb (String.eqb kv.1) option_keys) kw) /\
  (~ In ft [CHECKBOX; SELECT; MULTI_SELECT; CURRENCY; PERCENT] -> get_field_options ft kw = Some []).
Proof.
  split.
  - destruct ft; unfold get_field_options; rewrite ?kwargs_get_filter by reflexivity; reflexivity.
  - intros H. destruct ft; try reflexivity; exfalso; apply H; simpl; tauto.
Qed.

Lemma get_field_options_reads_only_known_keys_witness :
  ~ In RATING [CHECKBOX; SELECT; MULTI_SELECT; CURRENCY; PERCENT] /\
  get_field_options RATING [("choices", OList [OVal (PStr "a")])] = Some [].
Proof.
  split; [simpl; intuition discriminate|].
  apply (proj2 (get_field_options_reads_only_known_keys RATING [("choices", OList [OVal (PStr "a")])])).
  simpl. intuition discriminate.
Defined.

(** [get_field_options] raises (TypeError) exactly for SELECT and
    MULTI_SELECT with a truthy [choices] keyword that cannot be iterated. *)
Theorem get_field_options_raises_iff (ft : AirTableFieldType) (kw : list (string * optval)) :
  get_field_options ft kw = None <->
  (ft = SELECT \/ ft = MULTI_SELECT) /\
  opt_truthy (kwargs_get kw "choices" (OList [])) = true /\
  py_iter (kwargs_get kw "choices" (OList [])) = None.
Proof.
  destruct ft; unfold get_field_options;
    try (split; [discriminate | intros [[H|H] _]; discriminate H]);
    (destruct (opt_truthy _) eqn:Et; [destruct (py_iter _) eqn:Ei|]); simpl;
    intuition congruence.
Qed.

(** SELECT and MULTI_SELECT options agree for every keyword set: a
    non-empty list of choices becomes [{"choices": [{"name": c}, ...]}] in
    order, a non-empty string of choices is split into one choice per
    character, and a falsy or missing [choices] gives [{}]. *)
Theorem select_options_from_choices (kw : list (string * optval)) :
  get_field_options SELECT kw = get_field_options MULTI_SELECT kw /\
  (forall l : list optval, kwargs_get kw "choices" (OList []) = OList l -> l <> [] ->
     get_field_options SELECT kw =
       Some [("choices", OList (map (fun c => ODict [("name", c)]) l))]) /\
  (forall s : string, kwargs_get kw "choices" (OList []) = OVal (PStr s) -> s <> EmptyString ->
     get_field_options SELECT kw =
       Some [("choices", OList (map (fun c => ODict [("name", OVal (PStr (String c EmptyString)))])
                                  (list_ascii_of_string s)))]) /\
  (opt_truthy (kwargs_get kw "choices" (OList [])) = false -> get_field_options SELECT kw = Some []).
Proof.
  split; [reflexivity|]. split; [|split].
  - intros l Hl Hne. unfold get_field_options. rewrite Hl.
    destruct l; [congruence|]. reflexivity.
  - intros s Hs Hne. unfold get_field_options. rewrite Hs.
    destruct s as [|c s]; [congruence|]. simpl. unfold str_chars. now rewrite map_map.
  - intros H. unfold get_field_options. now rewrite H.
Qed.

Lemma select_options_from_choices_witness :
  kwargs_get [("choices", OList [OVal (PStr "Todo"); OVal (PStr "Done")])] "choices" (OList []) =
    OList [OVal (PStr "Todo"); OVal (PStr "Done")] /\
  [OVal (PStr "Todo"); OVal (PStr "Done")] <> [] /\
  get_field_options SELECT [("choices", OList [OVal (PStr "Todo"); OVal (PStr "Done")])] =
    Some [("choices", OList [ODict [("name", OVal (PStr "Todo"))]; ODict [("name", OVal (PStr "Done"))]])].
Proof.
  split; [reflexivity|]. split; [discriminate|].
  apply (proj1 (proj2 (select_options_from_choices
                         [("choices", OList [OVal (PStr "Todo"); OVal (PStr "Done")])]))
           [OVal (PStr "Todo"); OVal (PStr "Done")]); [reflexivity | discriminate].
Defined.

(** ** Further properties: the shared [json_schema_extra] dict *)

Section SharedExtra.
Import FieldTypeResolver.

Lemma dict_get_set_eq (d : list (string * pyval)) (k : string) (v : pyval) :
  dict_get (dict_set d k v) k = Some v.
Proof.
  induction d as [|[k' v'] d IH]; simpl; [now rewrite String.eqb_refl|].
  destruct (String.eqb k k') eqn:E; simpl; rewrite ?E; [reflexivity | exact IH].
Qed.

Lemma dict_get_set_ne (d : list (string * pyval)) (k k' : string) (v : pyval) :
  k <> k' -> dict_get (dict_set d k' v) k = dict_get d k.
Proof.
  intros Hne. induction d as [|[k0 v0] d IH]; simpl.
  - apply String.eqb_neq in Hne. now rewrite Hne.
  - destruct (String.eqb k' k0) eqn:E; simpl.
    + apply String.eqb_eq in E. subst k0.
      apply String.eqb_neq in Hne. now rewrite Hne.
    + now rewrite IH.
Qed.

(** [AirTableField] updates the [json_schema_extra] dict it is given in
    place: two fields declared with the same dict share it, and after the
    second declaration both fields carry the second one's type, so the
    first resolves to it whatever its name and annotation. *)
Theorem AirTableField_shares_extra_dict (h h1 h2 : dict_heap) (l l1 l2 : loc)
    (d : list (string * pyval)) (n1 n2 : option string) (x1 x2 : AirTableFieldType)
    (r1 r2 : bool)
    (Hl : h !! l = Some d)
    (H1 : AirTableField_obj h (Some l) n1 (Some x1) r1 = Some (l1, h1))
    (H2 : AirTableField_obj h1 (Some l) n2 (Some x2) r2 = Some (l2, h2)) :
  l1 = l /\ l2 = l /\
  exists d2, h2 !! l1 = Some d2 /\
    forall (name : string) (t : pytype),
      resolve_field_type name t (Some (mkFieldInfo (ExtraDict d2))) None = PFieldType x2.
Proof.
  unfold AirTableField_obj in H1, H2. cbv beta iota zeta in H1, H2.
  rewrite Hl in H1. unfold mbind, option_bind in H1. injection H1 as <- <-.
  match type of H2 with
  | context [ (<[l := ?v]> h) !! l ] =>
      assert (Hx : (<[l := v]> h : dict_heap) !! l = Some v) by apply lookup_insert_eq;
      rewrite Hx in H2
  end.
  unfold mbind, option_bind in H2. injection H2 as <- <-.
  split; [reflexivity|]. split; [reflexivity|].
  eexists. split; [apply lookup_insert_eq|].
  intros name t. unfold resolve_field_type, step2, metadata_type. cbn [json_schema_extra].
  unfold dict_update. cbn [fold_left fst snd].
  rewrite dict_get_set_ne by discriminate. rewrite dict_get_set_eq. reflexivity.
Qed.

Lemma AirTableField_shares_extra_dict_witness :
  exists l1 l2 h1 h2 d2,
    AirTableField_obj ({[ 0%nat := [] ]} : dict_heap) (Some 0%nat) (Some "Email") (Some EMAIL) false
      = Some (l1, h1) /\
    AirTableField_obj h1 (Some 0%nat) (Some "Notes") (Some LONG_TEXT) false = Some (l2, h2) /\
    h2 !! l1 = Some d2 /\
    resolve_field_type "contact_email" TStr (Some (mkFieldInfo (ExtraDict d2))) None
      = PFieldType LONG_TEXT.
Proof.
  destruct (AirTableField_shares_extra_dict ({[ 0%nat := [] ]} : dict_heap) _ _ 0%nat _ _ []
              (Some "Email") (Some "Notes") EMAIL LONG_TEXT false false
              ltac:(apply lookup_singleton_eq) eq_refl eq_refl) as (_ & _ & d2 & Hd2 & Hres).
  do 4 eexists. exists d2. split; [reflexivity|]. split; [reflexivity|].
  split; [exact Hd2 | apply Hres].
Defined.

(** [airtable_field] does not touch the [json_schema_extra] dict it is
    given: the field gets a new dict, the caller's entries followed by the
    metadata, which carries the declared type; every other dict of the heap
    is unchanged. *)
Theorem airtable_field_copies_extra_dict (h h' : dict_heap) (l l' : loc)
    (d : list (string * pyval)) (ft : option AirTableFieldType) (fn : option string) (ro : bool)
    (Hl : h !! l = Some d)
    (H : airtable_field_obj h (Some l) ft fn ro = Some (l', h')) :
  l' <> l /\ h' !! l = Some d /\
  h' !! l' = Some (dict_update d (airtable_metadata ft fn ro)) /\
  (forall k, k <> l' -> h' !! k = h !! k) /\
  (forall x, ft = Some x ->
     dict_get (dict_update d (airtable_metadata ft fn ro)) "airtable_field_type" =
       Some (PFieldType x)).
Proof.
  unfold airtable_field_obj in H. rewrite Hl in H. simpl in H. injection H as <- <-.
  assert (Hfresh : h !! fresh (dom h) = None) by (apply not_elem_of_dom, is_fresh).
  assert (Hne : fresh (dom h) <> l) by congruence.
  split; [exact Hne|]. split.
  { transitivity (h !! l); [apply lookup_insert_ne; congruence | exact Hl]. }
  split; [apply lookup_insert_eq|]. split.
  { intros k Hk. apply lookup_insert_ne. congruence. }
  intros x ->. unfold airtable_metadata, airtable_field. cbn [json_schema_extra].
  rewrite field_type_truthy_all. unfold dict_update.
  destruct fn as [n|]; [destruct (str_truthy n)|]; destruct ro;
    cbn [app fold_left fst snd];
    rewrite ?dict_get_set_ne by discriminate; apply dict_get_set_eq.
Qed.

Lemma airtable_field_copies_extra_dict_witness :
  exists l' h',
    airtable_field_obj ({[ 0%nat := [("description", PStr "Contact address")] ]} : dict_heap)
      (Some 0%nat) (Some EMAIL) None false = Some (l', h') /\
    l' <> 0%nat /\ h' !! 0%nat = Some [("description", PStr "Contact address")].
Proof.
  do 2 eexists. split; [reflexivity|].
  destruct (airtable_field_copies_extra_dict
              ({[ 0%nat := [("description", PStr "Contact address")] ]} : dict_heap) _ 0%nat _
              [("description", PStr "Contact address")] (Some EMAIL) None false
              ltac:(apply lookup_singleton_eq) eq_refl) as (Hne & Hold & _).
  split; [exact Hne | exact Hold].
Defined.

End SharedExtra.
